(** * Sale recording of the point-of-sale backend (server.js)

    A shallow embedding of the Express handler [app.post('/api/sales')], of
    the two storage helpers [readDatabase] and [writeDatabase], and of the
    routes that list products and sales and create a product.  The second
    entry point of the repository contains the same handler (it additionally
    pushes every touched product on a local array [updatedProducts] that is
    never read), so one model covers both files.

    Modelling choices, all visible in the definitions below:
    - a JavaScript number is a double; the numbers of the model are the
      doubles that are integers, the two infinities and NaN ([num]), and a
      number of a JSON text is the integer double it denotes ([JNum]):
      numbers with a fraction are outside the model.  The handler's only
      arithmetic is one subtraction, whose exact result is rounded to the
      nearest double ([double]): it is exact up to 2^53 in magnitude and an
      infinity beyond the largest double;
    - a request body and every stored field is a JSON tree ([json]); a value
      held by the handler is a JSON tree, [undefined], NaN or an infinity
      ([value]);
    - the database file is represented by the document its text denotes
      ([file]); [JSON.stringify] drops [undefined] fields and writes NaN and
      the infinities as [null], which is what [stringify_field] does;
    - conversions between strings and numbers belong to the JavaScript runtime
      and are taken as an interface ([Runtime]);
    - identifiers, timestamps and the success of the file write come from the
      environment ([env]). *)

From Stdlib Require Import ZArith List String Ascii Bool Lia.
From Stdlib Require DecimalString.
Import ListNotations.

Local Open Scope string_scope.
Local Open Scope Z_scope.
Set Warnings "-register-all".

(** ** Values *)

Inductive json : Type :=
| JNull
| JBool (b : bool)
| JNum (z : Z)
| JStr (s : string)
| JArr (l : list json)
| JObj (o : list (string * json)).

(** A JavaScript number: NaN, an integer, or plus or minus Infinity. *)
Inductive num : Type :=
| NaN
| Fin (z : Z)
| Infinity (negative : bool).

(** What a variable or an object field of the handler can hold. *)
Inductive value : Type :=
| VUndefined
| VNaN
| VJson (j : json)
| VInfinity (negative : bool).

Definition of_num (n : num) : value :=
  match n with
  | NaN => VNaN
  | Fin z => VJson (JNum z)
  | Infinity s => VInfinity s
  end.

(** Every integer up to this magnitude is a double. *)
Definition exact_bound : Z := 2 ^ 53.

(** The double nearest to an integer [m] above 2^53: the 53 leading bits of
    [m], rounded up when the bits that are dropped are more than half a unit
    of the last place kept, or exactly half and the last bit kept is 1. *)
Definition nearest_double (m : Z) : Z :=
  let e := Z.log2 m - 52 in
  let q := Z.shiftr m e in
  let r := Z.land m (Z.ones e) in
  let half := Z.shiftl 1 (e - 1) in
  (if (half <? r) || ((half =? r) && Z.odd q) then q + 1 else q) * 2 ^ e.

(** The number that an arithmetic operation with exact result [z] yields:
    [z] rounded to the nearest double, an infinity when that is 2^1024 or
    more in magnitude. *)
Definition double (z : Z) : num :=
  if Z.abs z <=? exact_bound then Fin z
  else
    let m := nearest_double (Z.abs z) in
    if 2 ^ 1024 <=? m then Infinity (z <? 0)
    else Fin (if z <? 0 then - m else m).

(** A field of a stored document: [None] when the key is absent. *)
Definition field : Type := option json.

(** [JSON.parse] on one field. *)
Definition parse_field (x : field) : value :=
  match x with
  | None => VUndefined
  | Some j => VJson j
  end.

(** [JSON.stringify] on one field: [undefined] is left out, NaN and the
    infinities become null. *)
Definition stringify_field (v : value) : field :=
  match v with
  | VUndefined => None
  | VNaN | VInfinity _ => Some JNull
  | VJson j => Some j
  end.

(** ** The runtime's conversions *)

Class Runtime : Type := {
  (** StringToNumber of ECMAScript, on strings that denote an integer, an
      infinity or no number at all *)
  StringToNumber : string -> num;
  (** Number::toString on integers *)
  NumberToString : Z -> string;
  (** ToPrimitive on an Array or a plain Object: the string its [toString]
      yields, or [None] when the conversion throws a TypeError *)
  ObjectToPrimitive : json -> option string;
  (** the empty string converts to 0 *)
  StringToNumber_empty : StringToNumber EmptyString = Fin 0
}.

(** ** Records of the data model

    Every record is used at two field types: [field] in the stored document
    and [value] in the object the handler works on. *)

Inductive TxType : Type := tx_in | tx_out.

Record SaleItem {V : Type} : Type := mkSaleItem {
  item_productId : V;
  item_name : V;
  item_price : V;
  item_quantity : V
}.
Arguments SaleItem : clear implicits.
Arguments mkSaleItem {V}.

Record Product {V : Type} : Type := mkProduct {
  product_id : string;
  product_name : V;
  product_category : V;
  product_price : V;
  product_quantity : V;
  product_lowStockThreshold : V;
  product_createdAt : string;
  product_updatedAt : string
}.
Arguments Product : clear implicits.
Arguments mkProduct {V}.

Record Sale {V : Type} : Type := mkSale {
  sale_id : string;
  sale_customerName : V;
  sale_items : list (SaleItem V);
  sale_totalAmount : V;
  sale_paymentMethod : V;
  sale_date : string
}.
Arguments Sale : clear implicits.
Arguments mkSale {V}.

Record StockTransaction {V : Type} : Type := mkStockTransaction {
  tx_id : string;
  tx_productId : string;
  tx_type : TxType;
  tx_quantity : V;
  tx_reason : string;
  tx_date : string
}.
Arguments StockTransaction : clear implicits.
Arguments mkStockTransaction {V}.

Record State {V : Type} : Type := mkState {
  products : list (Product V);
  sales : list (Sale V);
  customers : list json;
  stockTransactions : list (StockTransaction V)
}.
Arguments State : clear implicits.
Arguments mkState {V}.

(** The object literal [{ products: [], sales: [], customers: [],
    stockTransactions: [] }]. *)
Definition empty_state {V : Type} : State V := mkState [] [] [] [].

(** *** Conversion of whole records, field by field *)

Section Convert.
Context {V W : Type} (conv : V -> W).

Definition convert_item (i : SaleItem V) : SaleItem W :=
  mkSaleItem (conv (item_productId i)) (conv (item_name i))
             (conv (item_price i)) (conv (item_quantity i)).

Definition convert_product (p : Product V) : Product W :=
  mkProduct (product_id p) (conv (product_name p)) (conv (product_category p))
            (conv (product_price p)) (conv (product_quantity p))
            (conv (product_lowStockThreshold p))
            (product_createdAt p) (product_updatedAt p).

Definition convert_sale (s : Sale V) : Sale W :=
  mkSale (sale_id s) (conv (sale_customerName s))
         (map convert_item (sale_items s))
         (conv (sale_totalAmount s)) (conv (sale_paymentMethod s))
         (sale_date s).

Definition convert_tx (t : StockTransaction V) : StockTransaction W :=
  mkStockTransaction (tx_id t) (tx_productId t) (tx_type t)
                     (conv (tx_quantity t)) (tx_reason t) (tx_date t).

Definition convert_state (s : State V) : State W :=
  mkState (map convert_product (products s)) (map convert_sale (sales s))
          (customers s) (map convert_tx (stockTransactions s)).
End Convert.

(** The stored document and the object the handler works on. *)
Definition Document : Type := State field.
Definition Db : Type := State value.

Definition parse (d : Document) : Db := convert_state parse_field d.
Definition stringify (db : Db) : Document := convert_state stringify_field db.

(** ** The database file *)

Inductive file : Type :=
| Missing                 (* readFileSync throws: no such file *)
| Corrupt                 (* the text is not JSON: JSON.parse throws *)
| Stored (d : Document)   (* the text parses to an object with the four
                             collections, as the server writes it; a text
                             that parses to anything else is outside the
                             model *).

Record env : Type := mkEnv {
  (** the string returned by the n-th call of [generateId] in this request *)
  generateId : nat -> string;
  (** the string returned by the n-th [new Date().toISOString()] *)
  toISOString : nat -> string;
  (** whether [fs.writeFileSync] returns normally; when it throws, the
      file is taken to be as it was (the document is replaced as a whole or
      not at all) *)
  writeFileSync_ok : bool
}.

Definition readDatabase (f : file) : Db :=
  match f with
  | Stored d => parse d
  | Missing | Corrupt => empty_state
  end.

Definition writeDatabase (e : env) (data : Db) (f : file) : bool * file :=
  if writeFileSync_ok e then (true, Stored (stringify data)) else (false, f).

(** ** Coercions of the language *)

Section Handler.
Context {rt : Runtime}.

(** [Number(v)]; [None] when ToPrimitive throws. *)
Definition ToNumber (v : value) : option num :=
  match v with
  | VUndefined => Some NaN
  | VNaN => Some NaN
  | VJson JNull => Some (Fin 0)
  | VJson (JBool b) => Some (Fin (if b then 1 else 0))
  | VJson (JNum z) => Some (Fin z)
  | VJson (JStr s) => Some (StringToNumber s)
  | VJson (JArr l) => option_map StringToNumber (ObjectToPrimitive (JArr l))
  | VJson (JObj o) => option_map StringToNumber (ObjectToPrimitive (JObj o))
  | VInfinity s => Some (Infinity s)
  end.

(** The string a template literal inserts for [v]; [None] when ToPrimitive
    throws. *)
Definition ToString (v : value) : option string :=
  match v with
  | VUndefined => Some "undefined"
  | VNaN => Some "NaN"
  | VJson JNull => Some "null"
  | VJson (JBool b) => Some (if b then "true" else "false")
  | VJson (JNum z) => Some (NumberToString z)
  | VJson (JStr s) => Some s
  | VJson (JArr l) => ObjectToPrimitive (JArr l)
  | VJson (JObj o) => ObjectToPrimitive (JObj o)
  | VInfinity s => Some (if s then "-Infinity" else "Infinity")
  end.

(** ToBoolean, as used by [!v] and [v || w]. *)
Definition truthy (v : value) : bool :=
  match v with
  | VUndefined | VNaN | VJson JNull => false
  | VJson (JBool b) => b
  | VJson (JNum z) => negb (z =? 0)
  | VJson (JStr EmptyString) => false
  | VJson (JStr (String _ _)) => true
  | VJson (JArr _) | VJson (JObj _) => true
  | VInfinity _ => true
  end.

(** [a < b] and [a <= b] on numbers: false as soon as one side is NaN. *)
Definition num_lt (a b : num) : bool :=
  match a, b with
  | Fin x, Fin y => x <? y
  | Fin _, Infinity s => negb s
  | Infinity s, Fin _ => s
  | Infinity s, Infinity s' => s && negb s'
  | _, _ => false
  end.

Definition num_le (a b : num) : bool :=
  match a, b with
  | Fin x, Fin y => x <=? y
  | Fin _, Infinity s => negb s
  | Infinity s, Fin _ => s
  | Infinity s, Infinity s' => s || negb s'
  | _, _ => false
  end.

(** [a - b] on numbers: the exact difference, rounded; an infinity less a
    number is that infinity, and an infinity less itself is NaN. *)
Definition num_sub (a b : num) : num :=
  match a, b with
  | Fin x, Fin y => double (x - y)
  | Fin _, Infinity s => Infinity (negb s)
  | Infinity s, Fin _ => Infinity s
  | Infinity s, Infinity s' => if Bool.eqb s s' then NaN else Infinity s
  | _, _ => NaN
  end.

(** [id === v] for a string [id]. *)
Definition strict_eq (id : string) (v : value) : bool :=
  match v with
  | VJson (JStr s) => (id =? s)%string
  | _ => false
  end.

(** The own property [k] of a parsed object, in which every key occurs
    once. *)
Fixpoint own_property (o : list (string * json)) (k : string) : value :=
  match o with
  | [] => VUndefined
  | (k', j) :: o' => if (k' =? k)%string then VJson j else own_property o' k
  end.

(** [v.k] for the property names the handler reads ([items],
    [customerName], [totalAmount], [paymentMethod], [productId], [name],
    [price], [quantity]): none of them exists on an array, a string, a
    number or a boolean; reading a property of [null] or [undefined] throws
    ([None]). *)
Definition member (v : value) (k : string) : option value :=
  match v with
  | VUndefined | VJson JNull => None
  | VJson (JObj o) => Some (own_property o k)
  | _ => Some VUndefined
  end.

(** ** The handler of POST /api/sales *)

Inductive response : Type :=
| Created (sale : Sale value)  (* res.status(201).json({ message: 'Sale recorded', sale }) *)
| BadRequest (error : string)  (* res.status(400).json({ error }) *)
| ServerError.                 (* res.status(500).json({ error: err.message || 'Server error' }) *)

Definition status (r : response) : Z :=
  match r with
  | Created _ => 201
  | BadRequest _ => 400
  | ServerError => 500
  end.

(** A statement sequence inside [try]: it falls through with a result,
    returns a response, or throws. *)
Inductive exec (A : Type) : Type :=
| Next (a : A)
| Return (r : response)
| Throw.
Arguments Next {A}.
Arguments Return {A}.
Arguments Throw {A}.

Definition bind {A B : Type} (c : exec A) (k : A -> exec B) : exec B :=
  match c with
  | Next a => k a
  | Return r => Return r
  | Throw => Throw
  end.

(** An expression that may throw. *)
Definition eval {A : Type} (x : option A) : exec A :=
  match x with
  | Some a => Next a
  | None => Throw
  end.

Notation "x <- c ;; k" := (bind c (fun x => k))
  (at level 61, c at next level, right associativity).

(** The object built by the callback of [items.map]:
    price and quantity are results of [Number]. *)
Record Item : Type := mkItem {
  productId : value;
  name : value;
  price : num;
  quantity : num
}.

Definition map_item (i : json) : exec Item :=
  pid <- eval (member (VJson i) "productId") ;;
  nm <- eval (member (VJson i) "name") ;;
  pr <- eval (member (VJson i) "price") ;;
  p <- eval (ToNumber pr) ;;
  qt <- eval (member (VJson i) "quantity") ;;
  q <- eval (ToNumber qt) ;;
  Next (mkItem pid nm p q).

Fixpoint map_items (l : list json) : exec (list Item) :=
  match l with
  | [] => Next []
  | i :: l' =>
      x <- map_item i ;;
      xs <- map_items l' ;;
      Next (x :: xs)
  end.

(** The item as it sits in [sale.items]. *)
Definition item_object (i : Item) : SaleItem value :=
  mkSaleItem (productId i) (name i) (of_num (price i)) (of_num (quantity i)).

(** [db.products.find(p => p.id === pid)] *)
Definition find_product {V : Type} (ps : list (Product V)) (pid : value)
  : option (Product V) :=
  find (fun p => strict_eq (product_id p) pid) ps.

(** The assignments to the object returned by [find] are seen through
    [db.products]: the first product with that id is replaced. *)
Fixpoint assign (pid : value) (upd : Product value -> Product value)
         (ps : list (Product value)) : list (Product value) :=
  match ps with
  | [] => []
  | p :: ps' =>
      if strict_eq (product_id p) pid then upd p :: ps'
      else p :: assign pid upd ps'
  end.

(** [product.quantity -= n; product.updatedAt = now] *)
Definition sold (q : num) (n : num) (now : string) (p : Product value)
  : Product value :=
  mkProduct (product_id p) (product_name p) (product_category p)
            (product_price p) (of_num (num_sub q n))
            (product_lowStockThreshold p) (product_createdAt p) now.

(** The two failures of the loop, with the values their messages quote. *)
Inductive SaleError : Type :=
| NotFound (productId : value)
| InsufficientStock (productName available : value) (requested : num).

(** [return res.status(400).json({ error: `...` })]: the template literal
    is evaluated first, and converting one of its values may throw. *)
Definition reject {A : Type} (err : SaleError) : exec A :=
  match err with
  | NotFound pid =>
      s <- eval (ToString pid) ;;
      Return (BadRequest ("Product with ID " ++ s ++ " not found"))
  | InsufficientStock nm available requested =>
      n <- eval (ToString nm) ;;
      av <- eval (ToString available) ;;
      rq <- eval (ToString (of_num requested)) ;;
      Return (BadRequest ("Insufficient stock for " ++ n ++ ". Available: "
                          ++ av ++ ", Requested: " ++ rq))
  end.

(** The object pushed on [db.stockTransactions] in round [k]. *)
Definition ledger_entry (e : env) (saleId : string) (k : nat)
           (product : Product value) (item : Item) : StockTransaction value :=
  mkStockTransaction (generateId e (1 + k)%nat)
                     (product_id product)
                     tx_out
                     (of_num (quantity item))
                     ("Sale #" ++ saleId)
                     (toISOString e (2 + 2 * k)%nat).

(** One round of [for (let item of sale.items)]; [k] counts the rounds
    already done, which fixes the calls of [generateId] and of the clock
    made so far (one id and one timestamp for the sale, then one id and two
    timestamps per round). *)
Definition sell (e : env) (saleId : string) (k : nat) (db : Db) (item : Item)
  : exec Db :=
  match find_product (products db) (productId item) with
  | None => reject (NotFound (productId item))
  | Some product =>
      q <- eval (ToNumber (product_quantity product)) ;;
      if num_lt q (quantity item) then
        reject (InsufficientStock (product_name product)
                                  (product_quantity product) (quantity item))
      else
        Next (mkState
                (assign (productId item)
                        (sold q (quantity item) (toISOString e (1 + 2 * k)%nat))
                        (products db))
                (sales db)
                (customers db)
                (stockTransactions db ++
                 [ledger_entry e saleId k product item]))
  end.

Fixpoint sell_all (e : env) (saleId : string) (k : nat) (db : Db)
         (items : list Item) : exec Db :=
  match items with
  | [] => Next db
  | item :: rest =>
      db' <- sell e saleId k db item ;;
      sell_all e saleId (S k) db' rest
  end.

(** [x || d] *)
Definition or_default (x : value) (d : string) : value :=
  if truthy x then x else VJson (JStr d).

(** The head of [try]: the destructuring of [req.body], the two checks and
    the object literal [sale].  The result carries, next to [sale], the
    objects of [sale.items] that the loop goes through. *)
Definition new_sale (e : env) (body : value) : exec (Sale value * list Item) :=
  items <- eval (member body "items") ;;
  customerName <- eval (member body "customerName") ;;
  totalAmount <- eval (member body "totalAmount") ;;
  paymentMethod <- eval (member body "paymentMethod") ;;
  match items with
  | VJson (JArr (i :: l)) =>
      invalid <-
        (if negb (truthy totalAmount) then Next true
         else t <- eval (ToNumber totalAmount) ;; Next (num_le t (Fin 0))) ;;
      if (invalid : bool) then Return (BadRequest "Valid totalAmount required")
      else
        its <- map_items (i :: l) ;;
        total <- eval (ToNumber totalAmount) ;;
        Next (mkSale (generateId e 0)
                     (or_default customerName "Walk-in Customer")
                     (map item_object its)
                     (of_num total)
                     (or_default paymentMethod "cash")
                     (toISOString e 0),
              its)
  | _ => Return (BadRequest "Items array required")
  end.

(** [db.sales.push(sale)] *)
Definition push_sale (sale : Sale value) (db : Db) : Db :=
  mkState (products db) (sales db ++ [sale]) (customers db)
          (stockTransactions db).

(** The body of [try] up to the call of [writeDatabase]. *)
Definition attempt (e : env) (db : Db) (body : value) : exec (Db * Sale value) :=
  new <- new_sale e body ;;
  db' <- sell_all e (sale_id (fst new)) 0 db (snd new) ;;
  Next (push_sale (fst new) db', fst new).

(** The handler: the response sent and the file it leaves.  The result of
    [writeDatabase] is not looked at. *)
Definition post_api_sales (e : env) (f : file) (body : value)
  : response * file :=
  match attempt e (readDatabase f) body with
  | Next (db, sale) => (Created sale, snd (writeDatabase e db f))
  | Return r => (r, f)
  | Throw => (ServerError, f)
  end.

(** ** The contract, in the words of the specification *)

(** Validation as a dry run over the current snapshot: every item, in array
    order, is looked up in the products [ps] of the current State; a missing
    product is [NotFound], a product whose quantity is below the item's is
    [InsufficientStock]; the first violation wins. *)
Fixpoint validate (ps : list (Product value)) (items : list Item) : exec unit :=
  match items with
  | [] => Next tt
  | item :: rest =>
      match find_product ps (productId item) with
      | None => reject (NotFound (productId item))
      | Some product =>
          q <- eval (ToNumber (product_quantity product)) ;;
          if num_lt q (quantity item) then
            reject (InsufficientStock (product_name product)
                                      (product_quantity product)
                                      (quantity item))
          else validate ps rest
      end
  end.

(** Validation in turn: as [validate], except that each item meets the
    products as the items before it leave them, the product of an item that
    passes having its quantity reduced by the item's. *)
Fixpoint validate_in_turn (ps : list (Product value)) (items : list Item)
  : exec unit :=
  match items with
  | [] => Next tt
  | item :: rest =>
      match find_product ps (productId item) with
      | None => reject (NotFound (productId item))
      | Some product =>
          q <- eval (ToNumber (product_quantity product)) ;;
          if num_lt q (quantity item) then
            reject (InsufficientStock (product_name product)
                                      (product_quantity product)
                                      (quantity item))
          else
            validate_in_turn
              (assign (productId item)
                      (sold q (quantity item) (product_updatedAt product)) ps)
              rest
      end
  end.

(** What a computation leaves once its result is forgotten. *)
Definition outcome {A : Type} (c : exec A) : exec unit :=
  x <- c ;; Next tt.

End Handler.

(** A stored quantity that is a number (an integer, as every number of a
    document is), and not below zero. *)
Definition non_negative (q : field) : Prop :=
  exists z, q = Some (JNum z) /\ 0 <= z.

Definition stock_non_negative (f : file) : Prop :=
  match f with
  | Stored d => Forall (fun p => non_negative (product_quantity p)) (products d)
  | Missing | Corrupt => True
  end.

(** A stored quantity that is a number below zero. *)
Definition negative (q : field) : Prop :=
  exists z, q = Some (JNum z) /\ z < 0.

(** The ids of the products of a document. *)
Definition product_ids {V : Type} (s : State V) : list string :=
  map product_id (products s).

(** Referential integrity of a document: every ledger entry and every sale
    line names a product of the document. *)
Definition ledger_refers (d : Document) : Prop :=
  Forall (fun t => In (tx_productId t) (product_ids d)) (stockTransactions d).

Definition sales_refer (d : Document) : Prop :=
  Forall (fun s =>
            Forall (fun i => exists pid,
                        item_productId i = Some (JStr pid) /\
                        In pid (product_ids d))
                   (sale_items s))
         (sales d).

Definition referential_integrity (f : file) : Prop :=
  match f with
  | Stored d => ledger_refers d /\ sales_refer d
  | Missing | Corrupt => True
  end.

Definition no_negative_stock (f : file) : Prop :=
  match f with
  | Stored d => Forall (fun p => ~ negative (product_quantity p)) (products d)
  | Missing | Corrupt => True
  end.

(** The document that [readDatabase] sees in a file. *)
Definition document_of (f : file) : Document :=
  match f with
  | Stored d => d
  | Missing | Corrupt => empty_state
  end.

(** The stock of a document: the sum of the quantities that are numbers. *)
Definition stock_of (q : field) : Z :=
  match q with
  | Some (JNum z) => z
  | _ => 0
  end.

Definition stock (ps : list (Product field)) : Z :=
  fold_right (fun p acc => stock_of (product_quantity p) + acc) 0 ps.

Definition total_stock (d : Document) : Z := stock (products d).

(** The sum of the quantities a request asks for. *)
Definition requested_of (n : num) : Z :=
  match n with
  | Fin z => z
  | NaN | Infinity _ => 0
  end.

Definition total_requested (items : list Item) : Z :=
  fold_right (fun i acc => requested_of (quantity i) + acc) 0 items.

(** The ledger entry of a line item of sale [sid], over products [ids]. *)
Definition entry_of {V : Type} (quantity_of : num -> V) (sid : string)
           (ids : list string) (item : Item) (t : StockTransaction V) : Prop :=
  tx_type t = tx_out /\
  tx_quantity t = quantity_of (quantity item) /\
  productId item = VJson (JStr (tx_productId t)) /\
  In (tx_productId t) ids /\
  tx_reason t = "Sale #" ++ sid.

(** An item whose quantity is a number. *)
Definition numeric (i : Item) : Prop := exists z, quantity i = Fin z.

Arguments Next {A}.
Arguments Return {A}.
Arguments Throw {A}.
Arguments reject : simpl never.
Arguments double : simpl never.

(** ** A concrete runtime, for evaluating the handler on examples

    [decimal_literal] is StringToNumber on the empty string, on decimal
    integer literals and [Infinity] with an optional sign, and on strings
    that contain a character no numeric literal contains; [decimal_string] is
    Number::toString on integers below 10^21; [to_primitive] follows
    Array.prototype.toString and Object.prototype.toString on parsed JSON. *)

Definition digit (c : ascii) : option Z :=
  let n := Z.of_nat (nat_of_ascii c) in
  if (48 <=? n) && (n <=? 57) then Some (n - 48) else None.

Fixpoint digits (acc : Z) (s : string) : option Z :=
  match s with
  | EmptyString => Some acc
  | String c s' =>
      match digit c with
      | Some d => digits (10 * acc + d) s'
      | None => None
      end
  end.

Definition unsigned_literal (s : string) : option Z :=
  match s with
  | EmptyString => None
  | _ => digits 0 s
  end.

Definition unsigned_number (s : string) : num :=
  if (s =? "Infinity")%string then Infinity false
  else match unsigned_literal s with Some z => double z | None => NaN end.

Definition negate (n : num) : num :=
  match n with
  | NaN => NaN
  | Fin z => Fin (- z)
  | Infinity s => Infinity (negb s)
  end.

Definition decimal_literal (s : string) : num :=
  match s with
  | EmptyString => Fin 0
  | String "-" s' => negate (unsigned_number s')
  | String "+" s' => unsigned_number s'
  | _ => unsigned_number s
  end.

Definition decimal_string (z : Z) : string :=
  DecimalString.NilZero.string_of_int (Z.to_int z).

Definition has_own (k : string) (o : list (string * json)) : bool :=
  existsb (fun kv => (fst kv =? k)%string) o.

Fixpoint to_primitive (j : json) : option string :=
  match j with
  | JNull => Some "null"
  | JBool b => Some (if b then "true" else "false")
  | JNum z => Some (decimal_string z)
  | JStr s => Some s
  | JArr l =>
      (fix join (l : list json) : option string :=
         match l with
         | [] => Some EmptyString
         | x :: l' =>
             match (match x with
                    | JNull => Some EmptyString
                    | _ => to_primitive x
                    end) with
             | None => None
             | Some s =>
                 match l' with
                 | [] => Some s
                 | _ => option_map (fun r => s ++ "," ++ r) (join l')
                 end
             end
         end) l
  | JObj o => if has_own "toString" o then None else Some "[object Object]"
  end.

Definition node : Runtime := {|
  StringToNumber := decimal_literal;
  NumberToString := decimal_string;
  ObjectToPrimitive := to_primitive;
  StringToNumber_empty := eq_refl
|}.

(** *** Sample data: the scenarios of the specification *)

Definition widget (q : field) : Product field :=
  mkProduct "p1" (Some (JStr "Widget")) (Some (JStr "tools")) (Some (JNum 5))
            q (Some (JNum 10)) "2024-01-01T00:00:00.000Z"
            "2024-01-01T00:00:00.000Z".

Definition shop : Document := mkState [widget (Some (JNum 10))] [] [] [].

Definition line (pid : string) (q : json) : json :=
  JObj [("productId", JStr pid); ("quantity", q); ("price", JNum 5);
        ("name", JStr "Widget")].

Definition order (items : list json) (total : json) : value :=
  VJson (JObj [("items", JArr items); ("totalAmount", total)]).

Definition disk (ok : bool) : env :=
  mkEnv (fun n => "id" ++ decimal_string (Z.of_nat n))
        (fun n => "t" ++ decimal_string (Z.of_nat n))
        ok.

(** Scenario 1: three of the ten widgets. *)
Definition three_widgets : value := order [line "p1" (JNum 3)] (JNum 15).

Definition widget_line : Item :=
  mkItem (VJson (JStr "p1")) (VJson (JStr "Widget")) (Fin 5) (Fin 3).


Definition three_widgets_items : list Item := [widget_line].

Definition three_widgets_sale : Sale value :=
  mkSale "id0" (VJson (JStr "Walk-in Customer"))
         (map item_object three_widgets_items)
         (VJson (JNum 15)) (VJson (JStr "cash")) "t0".

(** A valid line followed by a line for a product that does not exist. *)
Definition widget_then_ghost : value :=
  order [line "p1" (JNum 3); line "ghost" (JNum 1)] (JNum 15).




(** A line without quantity. *)
Definition no_quantity : value :=
  order [JObj [("productId", JStr "p1")]] (JNum 15).

(** A totalAmount that is not a number. *)
Definition text_total : value := order [line "p1" (JNum 1)] (JStr "abc").

(** A second product, out of stock, and a request that returns five widgets
    and asks for no gadget. *)
Definition gadget : Product field :=
  mkProduct "p2" (Some (JStr "Gadget")) (Some (JStr "tools")) (Some (JNum 9))
            (Some (JNum 0)) (Some (JNum 10)) "2024-01-01T00:00:00.000Z"
            "2024-01-01T00:00:00.000Z".

Definition two_shelves : Document :=
  mkState [widget (Some (JNum 10)); gadget] [] [] [].

Definition returns : value :=
  order [line "p1" (JNum (-5)); line "p2" (JNum 0)] (JNum 1).

Definition returns_items : list Item :=
  [mkItem (VJson (JStr "p1")) (VJson (JStr "Widget")) (Fin 5) (Fin (-5));
   mkItem (VJson (JStr "p2")) (VJson (JStr "Widget")) (Fin 5) (Fin 0)].

Definition returns_sale : Sale value :=
  mkSale "id0" (VJson (JStr "Walk-in Customer"))
         (map item_object returns_items)
         (VJson (JNum 1)) (VJson (JStr "cash")) "t0".

(** ** The other routes and the start of the server *)

(** [GET /api/products] and [GET /api/sales]: [res.json] of one collection of
    the object read. *)
Definition get_api_products (f : file) : list (Product field) :=
  products (stringify (readDatabase f)).

Definition get_api_sales (f : file) : list (Sale field) :=
  sales (stringify (readDatabase f)).

(** At load time: [if (!fs.existsSync(dbPath)) fs.writeFileSync(dbPath,
    JSON.stringify({ products: [], ... }))].  The write is not inside a
    [try]: when it throws, loading the module fails ([None]). *)
Definition initialize (e : env) (f : file) : option file :=
  match f with
  | Missing =>
      if writeFileSync_ok e then Some (Stored (stringify empty_state)) else None
  | Corrupt | Stored _ => Some f
  end.

(** [Number(x) || 10] *)
Definition or_ten (n : num) : num :=
  match n with
  | Fin z => if z =? 0 then Fin 10 else Fin z
  | NaN => Fin 10
  | Infinity s => Infinity s
  end.

(** [db.products.push(product)] *)
Definition push_product (product : Product value) (db : Db) : Db :=
  mkState (products db ++ [product]) (sales db) (customers db)
          (stockTransactions db).

(** The answer of [POST /api/products]: 201 with the product, or an
    exception that leaves the handler (there is no [try] in it). *)
Inductive product_response : Type :=
| ProductCreated (product : Product value)  (* res.status(201).json(product) *)
| Uncaught.

Section Products.
Context {rt : Runtime}.

Notation "x <- c ;; k" := (bind c (fun x => k))
  (at level 61, c at next level, right associativity).

(** The object literal [product]; the properties read from [req.body]
    ([name], [category], [price], [quantity], [lowStockThreshold]) exist on
    parsed objects only. *)
Definition new_product (e : env) (body : value) : exec (Product value) :=
  nm <- eval (member body "name") ;;
  cat <- eval (member body "category") ;;
  pr <- eval (member body "price") ;;
  p <- eval (ToNumber pr) ;;
  qt <- eval (member body "quantity") ;;
  q <- eval (ToNumber qt) ;;
  th <- eval (member body "lowStockThreshold") ;;
  t <- eval (ToNumber th) ;;
  Next (mkProduct (generateId e 0) nm cat (of_num p) (of_num q)
                  (of_num (or_ten t)) (toISOString e 0) (toISOString e 1)).

(** The handler of [POST /api/products]; the result of [writeDatabase] is
    not looked at. *)
Definition post_api_products (e : env) (f : file) (body : value)
  : product_response * file :=
  match new_product e body with
  | Next product =>
      (ProductCreated product,
       snd (writeDatabase e (push_product product (readDatabase f)) f))
  | Return _ | Throw => (Uncaught, f)
  end.

End Products.

(** *** Measures used by the properties of the loop *)

(** The quantity the items ask of the product with id [id]. *)
Definition demand (id : string) (items : list Item) : Z :=
  fold_right (fun it acc =>
                if strict_eq id (productId it)
                then requested_of (quantity it) + acc else acc)
             0 items.

(** What the items with a quantity below zero give back to the product with
    id [id]. *)
Definition returned (id : string) (items : list Item) : Z :=
  fold_right (fun it acc =>
                if strict_eq id (productId it)
                then Z.max 0 (- requested_of (quantity it)) + acc else acc)
             0 items.

(** A product in memory whose quantity is an integer that satisfies [Q] and
    that, with all that [items] give back to the product, stays within the
    range in which every integer is a double. *)
Definition exact_in (Q : Z -> Prop) (items : list Item) (p : Product value)
  : Prop :=
  exists a, product_quantity p = VJson (JNum a) /\ Q a /\
            a + returned (product_id p) items <= exact_bound.

(** A request on stored products for which every subtraction of the loop is
    exact: the quantities asked are integers, the stored ones are, and no
    product's quantity, with all that items of negative quantity give back
    to it, exceeds 2^53. *)
Definition within_exact_range (ps : list (Product field)) (items : list Item)
  : Prop :=
  Forall numeric items /\
  Forall (fun p => exists a, product_quantity p = Some (JNum a) /\
                             a + returned (product_id p) items
                             <= exact_bound) ps.

(** What validation looks at in a product. *)
Definition stock_view (p : Product value) : string * value * value :=
  (product_id p, product_name p, product_quantity p).

(** The sum of the quantities of ledger entries. *)
Definition ledger_total (entries : list (StockTransaction field)) : Z :=
  fold_right (fun t acc => stock_of (tx_quantity t) + acc) 0 entries.

(** What a sale never touches in a product. *)
Definition product_static {V : Type} (p : Product V)
  : string * V * V * V * V * string :=
  (product_id p, product_name p, product_category p, product_price p,
   product_lowStockThreshold p, product_createdAt p).

(** The same fields as [JSON.stringify] writes them. *)
Definition static_written (x : string * value * value * value * value * string)
  : string * field * field * field * field * string :=
  let '(i, n, c, p, t, d) := x in
  (i, stringify_field n, stringify_field c, stringify_field p,
   stringify_field t, d).

(** An item whose quantity is a number not below zero. *)
Definition counted_item (i : Item) : Prop :=
  exists b, quantity i = Fin b /\ 0 <= b.

(** A second sample product and the requests that create products. *)
Definition new_gadget : value :=
  VJson (JObj [("name", JStr "Gadget"); ("category", JStr "tools");
               ("price", JNum 9); ("quantity", JNum 4)]).

Definition gadget_created : Product value :=
  mkProduct "id0" (VJson (JStr "Gadget")) (VJson (JStr "tools"))
            (VJson (JNum 9)) (VJson (JNum 4)) (VJson (JNum 10)) "t0" "t1".


(** A file whose one product has a quantity below zero, and a request for
    none of it. *)
Definition overdrawn : Document :=
  mkState [widget (Some (JNum (-5)))] [] [] [].

Definition nothing : value := order [line "p1" (JNum 0)] (JNum 1).

(** The file after the sale of three widgets was written. *)
Definition sold_shop : file :=
  snd (post_api_sales (rt := node) (disk true) (Stored shop) three_widgets).

(** Two lines for the same product that together take the whole stock. *)
Definition seven_line : Item :=
  mkItem (VJson (JStr "p1")) (VJson (JStr "Widget")) (Fin 5) (Fin 7).

Definition three_then_seven : value :=
  order [line "p1" (JNum 3); line "p1" (JNum 7)] (JNum 50).

Definition three_then_seven_items : list Item := [widget_line; seven_line].

Definition three_then_seven_sale : Sale value :=
  mkSale "id0" (VJson (JStr "Walk-in Customer"))
         (map item_object three_then_seven_items)
         (VJson (JNum 50)) (VJson (JStr "cash")) "t0".


(** * Properties *)

(** ** The store: parsing what was written *)

Lemma stringify_parse_field (x : field) :
  stringify_field (parse_field x) = x.
Proof. destruct x; reflexivity. Qed.

Lemma map_self {A : Type} (g : A -> A) (l : list A) :
  (forall a, g a = a) -> map g l = l.
Proof.
  intros Hg. induction l as [|a l IH]; simpl; [reflexivity|].
  now rewrite Hg, IH.
Qed.

Lemma stringify_parse_item (i : SaleItem field) :
  convert_item stringify_field (convert_item parse_field i) = i.
Proof.
  destruct i; unfold convert_item; simpl.
  now rewrite !stringify_parse_field.
Qed.

Lemma stringify_parse_product (p : Product field) :
  convert_product stringify_field (convert_product parse_field p) = p.
Proof.
  destruct p; unfold convert_product; simpl.
  now rewrite !stringify_parse_field.
Qed.

Lemma stringify_parse_sale (s : Sale field) :
  convert_sale stringify_field (convert_sale parse_field s) = s.
Proof.
  destruct s; unfold convert_sale; simpl.
  rewrite !stringify_parse_field, map_map.
  now rewrite (map_self _ _ stringify_parse_item).
Qed.

Lemma stringify_parse_tx (t : StockTransaction field) :
  convert_tx stringify_field (convert_tx parse_field t) = t.
Proof.
  destruct t; unfold convert_tx; simpl.
  now rewrite stringify_parse_field.
Qed.

Lemma stringify_parse (d : Document) : stringify (parse d) = d.
Proof.
  destruct d as [ps ss cs ts]; unfold stringify, parse, convert_state; simpl.
  rewrite !map_map.
  rewrite (map_self _ _ stringify_parse_product).
  rewrite (map_self _ _ stringify_parse_sale).
  now rewrite (map_self _ _ stringify_parse_tx).
Qed.

(** C8: [readDatabase] never fails: with no file, or a file that does not
    parse, it yields the State with four empty collections; otherwise it yields
    the stored document, which after a write that succeeded is the document
    of the State that was written. *)
Theorem readDatabase_last_persisted_or_empty :
  readDatabase Missing = mkState [] [] [] [] /\
  readDatabase Corrupt = mkState [] [] [] [] /\
  (forall d, readDatabase (Stored d) = parse d) /\
  (forall d, stringify (readDatabase (Stored d)) = d) /\
  (forall gen clock data f,
      snd (writeDatabase (mkEnv gen clock true) data f) = Stored (stringify data) /\
      readDatabase (snd (writeDatabase (mkEnv gen clock true) data f))
      = parse (stringify data)).
Proof.
  repeat split; try reflexivity.
  intros d. simpl. apply stringify_parse.
Qed.

(** C9: on a document that [writeDatabase] produced, reading it and writing
    back what was read leaves the document as it was, whether or not the
    second write succeeds. *)
Theorem save_after_load_is_noop :
  forall gen clock data f0 e,
    let f := snd (writeDatabase (mkEnv gen clock true) data f0) in
    snd (writeDatabase e (readDatabase f) f) = f.
Proof.
  intros gen clock data f0 e. simpl.
  unfold writeDatabase. destruct (writeFileSync_ok e); simpl; [|reflexivity].
  now rewrite stringify_parse.
Qed.

(** ** The handler *)

Section Sale.
Context {rt : Runtime}.

(** Any answer other than 201 leaves the file alone. *)
Lemma only_created_writes e f body :
  (forall sale, fst (post_api_sales e f body) <> Created sale) ->
  snd (post_api_sales e f body) = f.
Proof.
  unfold post_api_sales.
  destruct (attempt e (readDatabase f) body) as [[db sale]|r|]; simpl;
    intros H; try reflexivity.
  now destruct (H sale).
Qed.

(** *** Lookup and in-place update of products *)

Lemma strict_eq_true id v : strict_eq id v = true <-> v = VJson (JStr id).
Proof.
  destruct v as [| |[]|]; simpl; split; intros H; try discriminate.
  - apply String.eqb_eq in H. now subst.
  - injection H as ->. apply String.eqb_refl.
Qed.

Lemma find_product_some {V : Type} (ps : list (Product V)) pid p :
  find_product ps pid = Some p ->
  pid = VJson (JStr (product_id p)) /\ In p ps.
Proof.
  unfold find_product. intros H. apply find_some in H as [Hin Heq].
  split; [now apply strict_eq_true|assumption].
Qed.

Lemma find_product_in_ids {V : Type} (ps : list (Product V)) pid p :
  find_product ps pid = Some p -> In (product_id p) (map product_id ps).
Proof.
  intros H. apply find_product_some in H as [_ Hin]. now apply in_map.
Qed.

Lemma strict_eq_find {V : Type} (ps : list (Product V)) pid p :
  find_product ps pid = Some p -> strict_eq (product_id p) pid = true.
Proof.
  intros H. apply find_product_some in H as [-> _]. now apply strict_eq_true.
Qed.

Lemma strict_eq_ids id id' v :
  strict_eq id v = true -> strict_eq id' v = true -> id = id'.
Proof.
  intros H H'. apply strict_eq_true in H, H'. congruence.
Qed.

Lemma strict_eq_values id v w :
  strict_eq id v = true -> strict_eq id w = true -> v = w.
Proof.
  intros H H'. apply strict_eq_true in H, H'. congruence.
Qed.

Lemma find_product_last {V : Type} (ps : list (Product V)) p pid :
  find_product (ps ++ [p]) pid
  = match find_product ps pid with
    | Some x => Some x
    | None => if strict_eq (product_id p) pid then Some p else None
    end.
Proof.
  unfold find_product. induction ps as [|x ps IH]; simpl.
  - now destruct (strict_eq (product_id p) pid).
  - now destruct (strict_eq (product_id x) pid).
Qed.

Lemma find_product_fresh {V : Type} (ps : list (Product V)) id :
  ~ In id (map product_id ps) -> find_product ps (VJson (JStr id)) = None.
Proof.
  intros Hfresh.
  destruct (find_product ps (VJson (JStr id))) as [p|] eqn:Hf; [|reflexivity].
  exfalso. apply Hfresh.
  pose proof (find_product_in_ids _ _ _ Hf) as Hin.
  apply find_product_some in Hf as [Heq _]. injection Heq as ->. exact Hin.
Qed.

Lemma find_product_present {V : Type} (ps : list (Product V)) id :
  In id (map product_id ps) ->
  exists p, find_product ps (VJson (JStr id)) = Some p /\ In p ps.
Proof.
  unfold find_product. induction ps as [|x ps IH]; simpl; [intros []|].
  destruct (product_id x =? id)%string eqn:E.
  - intros _. exists x. split; [reflexivity|now left].
  - intros [H|H].
    + subst id. now rewrite String.eqb_refl in E.
    + destruct (IH H) as (p & Hp & Hin). exists p. split; [exact Hp|now right].
Qed.

Section Assign.
Variable upd : Product value -> Product value.
Hypothesis upd_id : forall p, product_id (upd p) = product_id p.

Lemma assign_ids pid ps :
  map product_id (assign pid upd ps) = map product_id ps.
Proof.
  induction ps as [|p ps IH]; simpl; [reflexivity|].
  destruct (strict_eq (product_id p) pid); simpl.
  - now rewrite upd_id.
  - now rewrite IH.
Qed.

Lemma find_assign_same pid ps :
  find_product (assign pid upd ps) pid = option_map upd (find_product ps pid).
Proof.
  unfold find_product.
  induction ps as [|p ps IH]; simpl; [reflexivity|].
  destruct (strict_eq (product_id p) pid) eqn:E; simpl.
  - now rewrite upd_id, E.
  - now rewrite E, IH.
Qed.

Lemma find_assign_other pid pid' ps :
  pid <> pid' ->
  find_product (assign pid upd ps) pid' = find_product ps pid'.
Proof.
  intros Hne. unfold find_product.
  induction ps as [|p ps IH]; simpl; [reflexivity|].
  destruct (strict_eq (product_id p) pid) eqn:E; simpl.
  - rewrite upd_id.
    destruct (strict_eq (product_id p) pid') eqn:E'; [|reflexivity].
    apply strict_eq_true in E, E'. congruence.
  - now rewrite IH.
Qed.
End Assign.

Lemma sold_id q n now p : product_id (sold q n now p) = product_id p.
Proof. reflexivity. Qed.

(** *** One round of the loop *)

Lemma reject_not_next {A : Type} err (a : A) : reject err <> Next a.
Proof.
  destruct err as [pid|nm av rq]; unfold reject, bind, eval.
  - destruct (ToString pid); discriminate.
  - destruct (ToString nm); [|discriminate].
    destruct (ToString av); [|discriminate].
    destruct (ToString (of_num rq)); discriminate.
Qed.

Lemma sell_next e sid k db item db' :
  sell e sid k db item = Next db' ->
  exists product q,
    find_product (products db) (productId item) = Some product /\
    ToNumber (product_quantity product) = Some q /\
    num_lt q (quantity item) = false /\
    db' = mkState (assign (productId item)
                          (sold q (quantity item) (toISOString e (1 + 2 * k)%nat))
                          (products db))
                  (sales db) (customers db)
                  (stockTransactions db ++ [ledger_entry e sid k product item]).
Proof.
  unfold sell, bind, eval.
  destruct (find_product (products db) (productId item)) as [product|] eqn:Hf.
  - destruct (ToNumber (product_quantity product)) as [q|] eqn:Hq;
      [|discriminate].
    destruct (num_lt q (quantity item)) eqn:Hlt.
    + intros H. now apply reject_not_next in H.
    + intros H. injection H as <-. now exists product, q.
  - intros H. now apply reject_not_next in H.
Qed.

(** A successful loop leaves sales, customers and the product ids untouched
    and has pushed one ledger entry per item, in order. *)
Lemma sell_all_shape its :
  forall e sid k db db',
    sell_all e sid k db its = Next db' ->
    sales db' = sales db /\
    customers db' = customers db /\
    product_ids db' = product_ids db /\
    exists entries,
      stockTransactions db' = (stockTransactions db ++ entries)%list /\
      Forall2 (entry_of of_num sid (product_ids db)) its entries.
Proof.
  induction its as [|item rest IH]; intros e sid k db db' H; simpl in H.
  - injection H as <-. repeat split; try reflexivity.
    exists []. split; [now rewrite app_nil_r|constructor].
  - unfold bind in H.
    destruct (sell e sid k db item) as [db1| |] eqn:Hs; try discriminate.
    apply sell_next in Hs as (product & q & Hf & Hq & Hlt & ->).
    apply IH in H as (Hsales & Hcust & Hids & entries & Htx & Hall).
    simpl in *. unfold product_ids in *. simpl in *.
    rewrite (assign_ids _ (sold_id _ _ _)) in *.
    repeat split; try assumption.
    exists (ledger_entry e sid k product item :: entries). split.
    + now rewrite Htx, <- app_assoc.
    + constructor; [|assumption].
      repeat split; try reflexivity.
      * simpl. now apply find_product_some in Hf as [-> _].
      * simpl. now apply find_product_in_ids in Hf.
Qed.

(** *** Distinct products: the loop against the current snapshot *)

Lemma reject_bind {A B : Type} err (k : A -> exec B) :
  bind (reject err) k = reject err.
Proof.
  destruct err as [pid|nm av rq]; unfold reject, bind, eval.
  - now destruct (ToString pid).
  - destruct (ToString nm); [|reflexivity].
    destruct (ToString av); [|reflexivity].
    now destruct (ToString (of_num rq)).
Qed.

(** When no product id repeats among the items, what the loop decides is
    what validation against the products [ps] it started from decides. *)
Lemma sell_all_validate its :
  forall e sid k ps db,
    (forall it, In it its ->
                find_product (products db) (productId it)
                = find_product ps (productId it)) ->
    NoDup (map productId its) ->
    outcome (sell_all e sid k db its) = validate ps its.
Proof.
  induction its as [|item rest IH]; intros e sid k ps db Hsame Hnd;
    [reflexivity|].
  simpl. inversion Hnd as [|x l Hnotin Hnd']; subst.
  unfold sell. rewrite (Hsame item (or_introl eq_refl)).
  destruct (find_product ps (productId item)) as [product|].
  2:{ unfold outcome. now rewrite !reject_bind. }
  unfold outcome, bind at 3 4, eval.
  destruct (ToNumber (product_quantity product)) as [q|]; [|reflexivity].
  simpl.
  destruct (num_lt q (quantity item)).
  { fold (@bind Db Db). now rewrite !reject_bind. }
  simpl. apply IH; [|assumption].
  intros it Hin. simpl.
  rewrite (find_assign_other _ (sold_id _ _ _)).
  - apply Hsame. now right.
  - intros Heq. apply Hnotin. rewrite Heq. now apply in_map.
Qed.


(** *** Quantities through the loop *)

Lemma assign_Forall (P : Product value -> Prop) pid upd ps :
  Forall P ps ->
  (forall p, find_product ps pid = Some p -> P (upd p)) ->
  Forall P (assign pid upd ps).
Proof.
  unfold find_product.
  induction ps as [|p ps IH]; intros Hall Hupd; simpl; [constructor|].
  inversion Hall as [|x l Hp Hps]; subst. simpl in Hupd.
  destruct (strict_eq (product_id p) pid).
  - constructor; [now apply Hupd|assumption].
  - constructor; [assumption|now apply IH].
Qed.

Lemma sell_all_Forall (P : Product value -> Prop) (R : Item -> Prop) :
  (forall p q it now,
      P p -> R it -> ToNumber (product_quantity p) = Some q ->
      num_lt q (quantity it) = false -> P (sold q (quantity it) now p)) ->
  forall its e sid k db db',
    Forall R its ->
    Forall P (products db) ->
    sell_all e sid k db its = Next db' ->
    Forall P (products db').
Proof.
  intros Hstep.
  induction its as [|item rest IH]; intros e sid k db db' HR HP H; simpl in H.
  - now injection H as <-.
  - inversion HR as [|x l Hitem Hrest]; subst.
    unfold bind in H.
    destruct (sell e sid k db item) as [db1| |] eqn:Hs; try discriminate.
    apply sell_next in Hs as (product & q & Hf & Hq & Hlt & ->).
    apply (IH _ _ _ _ _ Hrest) in H; [assumption|]. simpl.
    apply assign_Forall; [assumption|].
    intros p Hp. rewrite Hf in Hp. injection Hp as <-.
    apply Hstep; try assumption.
    apply find_product_some in Hf as [_ Hin].
    now apply (proj1 (Forall_forall _ _) HP).
Qed.

(** *** Rounding, and the range in which subtraction is exact *)

Lemma double_exact z : Z.abs z <= exact_bound -> double z = Fin z.
Proof. intros H. unfold double. apply Z.leb_le in H. now rewrite H. Qed.

Lemma nearest_double_non_negative m : 0 <= m -> 0 <= nearest_double m.
Proof.
  intros Hm. unfold nearest_double. cbv zeta.
  apply Z.mul_nonneg_nonneg.
  - assert (0 <= Z.shiftr m (Z.log2 m - 52)) by now apply Z.shiftr_nonneg.
    destruct (_ || _); lia.
  - apply Z.pow_nonneg. lia.
Qed.

(** The difference of a number and one not above it never rounds to a
    number below zero. *)
Lemma double_not_negative z r : 0 <= z -> double z = Fin r -> 0 <= r.
Proof.
  intros Hz. unfold double. cbv zeta.
  destruct (Z.abs z <=? exact_bound); [now intros [= <-]|].
  destruct (2 ^ 1024 <=? nearest_double (Z.abs z)); [discriminate|].
  assert (Hs : (z <? 0) = false) by now apply Z.ltb_ge.
  rewrite Hs. intros [= <-].
  apply nearest_double_non_negative. lia.
Qed.

Lemma sold_exact a b now p :
  Z.abs (a - b) <= exact_bound ->
  product_quantity (sold (Fin a) (Fin b) now p) = VJson (JNum (a - b)).
Proof. intros H. simpl. now rewrite (double_exact _ H). Qed.

Lemma returned_non_negative id its : 0 <= returned id its.
Proof.
  induction its as [|it its IH]; simpl; [lia|].
  destruct (strict_eq id (productId it)); lia.
Qed.

Lemma exact_in_tail (Q : Z -> Prop) item rest p :
  exact_in Q (item :: rest) p -> exact_in Q rest p.
Proof.
  intros (a & Ha & HQ & Hb). exists a. repeat split; try assumption.
  simpl in Hb. pose proof (returned_non_negative (product_id p) rest).
  destruct (strict_eq (product_id p) (productId item)); lia.
Qed.

(** One accepted round on products within the exact range: the product
    found had at least the quantity asked for, and is left with the exact
    difference. *)
Lemma sell_exact (Q : Z -> Prop) e sid k db item rest db1 :
  (forall a b, Q a -> b <= a -> Q (a - b)) ->
  numeric item ->
  Forall (exact_in Q (item :: rest)) (products db) ->
  sell e sid k db item = Next db1 ->
  Forall (exact_in Q rest) (products db1) /\
  exists product a b,
    find_product (products db) (productId item) = Some product /\
    product_quantity product = VJson (JNum a) /\
    quantity item = Fin b /\
    b <= a /\
    Z.abs (a - b) <= exact_bound /\
    db1 = mkState (assign (productId item)
                          (sold (Fin a) (Fin b) (toISOString e (1 + 2 * k)%nat))
                          (products db))
                  (sales db) (customers db)
                  (stockTransactions db ++ [ledger_entry e sid k product item]).
Proof.
  intros HQ [b Hb] Hall Hs.
  apply sell_next in Hs as (product & q & Hf & Hq & Hlt & ->).
  pose proof (find_product_some _ _ _ Hf) as [_ Hin].
  destruct (proj1 (Forall_forall _ _) Hall product Hin)
    as (a & Ha & HQa & Hbound).
  rewrite Ha in Hq. simpl in Hq. injection Hq as <-.
  rewrite Hb in Hlt |- *. simpl in Hlt. apply Z.ltb_ge in Hlt.
  simpl in Hbound. rewrite (strict_eq_find _ _ _ Hf), Hb in Hbound.
  simpl in Hbound.
  pose proof (returned_non_negative (product_id product) rest) as Hnn.
  assert (Hex : Z.abs (a - b) <= exact_bound) by lia.
  split.
  - simpl. apply assign_Forall.
    + revert Hall. apply Forall_impl. intros p. apply exact_in_tail.
    + intros p Hp. rewrite Hf in Hp. injection Hp as <-.
      exists (a - b). split; [now apply sold_exact|].
      split; [now apply HQ|]. simpl. lia.
  - exists product, a, b. now repeat split.
Qed.


(** Whatever the item, the quantity the loop stores is not a number below
    zero. *)
Lemma sold_not_negative p q n now :
  num_lt q n = false ->
  ~ negative (stringify_field (product_quantity (sold q n now p))).
Proof.
  intros Hlt (z & Hz & Hneg). simpl in Hz.
  destruct q as [|a|s], n as [|b|s']; simpl in Hz; try discriminate.
  - simpl in Hlt. apply Z.ltb_ge in Hlt.
    destruct (double (a - b)) as [|r|s] eqn:Hd; simpl in Hz; try discriminate.
    injection Hz as <-. apply double_not_negative in Hd; lia.
  - destruct (Bool.eqb s s'); discriminate.
Qed.

Lemma stock_assign pid a b now ps p :
  find_product ps pid = Some p ->
  product_quantity p = VJson (JNum a) ->
  Z.abs (a - b) <= exact_bound ->
  stock (map (convert_product stringify_field)
             (assign pid (sold (Fin a) (Fin b) now) ps))
  = stock (map (convert_product stringify_field) ps) - b.
Proof.
  unfold find_product.
  induction ps as [|x ps IH]; intros Hf Hq Hex; simpl in *; [discriminate|].
  destruct (strict_eq (product_id x) pid).
  - injection Hf as ->. simpl. rewrite Hq, (double_exact _ Hex). simpl. lia.
  - simpl. rewrite (IH Hf Hq Hex). lia.
Qed.

Lemma sell_all_stock its :
  forall e sid k db db',
    Forall numeric its ->
    Forall (exact_in (fun _ => True) its) (products db) ->
    sell_all e sid k db its = Next db' ->
    stock (products (stringify db'))
    = stock (products (stringify db)) - total_requested its.
Proof.
  induction its as [|item rest IH]; intros e sid k db db' HR HP H; simpl in H.
  - injection H as <-. simpl. lia.
  - inversion HR as [|x l Hitem Hrest]; subst.
    unfold bind in H.
    destruct (sell e sid k db item) as [db1| |] eqn:Hs; try discriminate.
    destruct (sell_exact _ _ _ _ _ _ rest _ (fun _ _ _ _ => I) Hitem HP Hs)
      as (HP1 & product & a & b & Hf & Ha & Hb & _ & Hex & ->).
    rewrite (IH _ _ _ _ _ Hrest HP1 H). simpl.
    rewrite (stock_assign _ _ _ _ _ _ Hf Ha Hex).
    unfold total_requested. simpl. rewrite Hb. simpl. lia.
Qed.

(** *** From the object in memory to the document written *)

Lemma find_product_map {V W : Type} (g : Product V -> Product W) ps pid :
  (forall p, product_id (g p) = product_id p) ->
  find_product (map g ps) pid = option_map g (find_product ps pid).
Proof.
  intros Hg. unfold find_product.
  induction ps as [|p ps IH]; simpl; [reflexivity|].
  rewrite Hg. now destruct (strict_eq (product_id p) pid).
Qed.

Lemma find_product_parse (d : Document) pid :
  find_product (products (parse d)) pid
  = option_map (convert_product parse_field) (find_product (products d) pid).
Proof. simpl. now apply find_product_map. Qed.

Lemma find_product_stringify (db : Db) pid :
  find_product (products (stringify db)) pid
  = option_map (convert_product stringify_field)
               (find_product (products db) pid).
Proof. simpl. now apply find_product_map. Qed.

Lemma product_ids_parse (d : Document) : product_ids (parse d) = product_ids d.
Proof.
  unfold product_ids. simpl. rewrite map_map. reflexivity.
Qed.

Lemma product_ids_stringify (db : Db) :
  product_ids (stringify db) = product_ids db.
Proof.
  unfold product_ids. simpl. rewrite map_map. reflexivity.
Qed.

Lemma entries_stringify sid ids its entries :
  Forall2 (entry_of of_num sid ids) its entries ->
  Forall2 (entry_of (fun n => stringify_field (of_num n)) sid ids) its
          (map (convert_tx stringify_field) entries).
Proof.
  induction 1 as [|it t its entries (Ht & Hq & Hp & Hin & Hr) _ IH]; simpl;
    constructor; [|assumption].
  repeat split; simpl; try assumption. now rewrite Hq.
Qed.

(** *** The handler, by cases on its head and its loop *)

Lemma post_created e f body sale its db' :
  new_sale e body = Next (sale, its) ->
  sell_all e (sale_id sale) 0 (readDatabase f) its = Next db' ->
  post_api_sales e f body
  = (Created sale, snd (writeDatabase e (push_sale sale db') f)).
Proof.
  intros Hn Hl. unfold post_api_sales, attempt, bind.
  rewrite Hn. simpl. now rewrite Hl.
Qed.

(** When the write fails the answer is the same, and the file is as it
    was: the boolean that [writeDatabase] returns is dropped. *)
Lemma post_created_unsaved e f body sale its db' :
  new_sale e body = Next (sale, its) ->
  sell_all e (sale_id sale) 0 (readDatabase f) its = Next db' ->
  writeFileSync_ok e = false ->
  post_api_sales e f body = (Created sale, f) /\
  fst (writeDatabase e (push_sale sale db') f) = false.
Proof.
  intros Hn Hl Hw. rewrite (post_created e f body sale its db' Hn Hl).
  unfold writeDatabase. rewrite Hw. split; reflexivity.
Qed.


Lemma reject_return {A : Type} err r :
  @reject _ A err = Return r -> exists msg, r = BadRequest msg.
Proof.
  destruct err as [pid|nm av rq]; unfold reject, bind, eval.
  - destruct (ToString pid); [|discriminate].
    intros [= <-]. eauto.
  - destruct (ToString nm); [|discriminate].
    destruct (ToString av); [|discriminate].
    destruct (ToString (of_num rq)); [|discriminate].
    intros [= <-]. eauto.
Qed.

Lemma sell_return e sid k db item r :
  sell e sid k db item = Return r -> exists msg, r = BadRequest msg.
Proof.
  unfold sell, bind, eval.
  destruct (find_product (products db) (productId item)) as [product|].
  - destruct (ToNumber (product_quantity product)) as [q|]; [|discriminate].
    destruct (num_lt q (quantity item)); [|discriminate].
    apply reject_return.
  - apply reject_return.
Qed.

Lemma sell_all_return its :
  forall e sid k db r,
    sell_all e sid k db its = Return r -> exists msg, r = BadRequest msg.
Proof.
  induction its as [|item rest IH]; intros e sid k db r H; simpl in H;
    [discriminate|].
  unfold bind in H.
  destruct (sell e sid k db item) as [db1|r1|] eqn:Hs; try discriminate.
  - now apply IH in H.
  - injection H as <-. now apply sell_return in Hs.
Qed.

Lemma map_item_not_return i r : map_item i <> Return r.
Proof.
  unfold map_item, bind, eval.
  destruct (member (VJson i) "productId"); [|discriminate].
  destruct (member (VJson i) "name"); [|discriminate].
  destruct (member (VJson i) "price") as [pr|]; [|discriminate].
  destruct (ToNumber pr); [|discriminate].
  destruct (member (VJson i) "quantity") as [qt|]; [|discriminate].
  destruct (ToNumber qt); discriminate.
Qed.

Lemma map_items_not_return l : forall r, map_items l <> Return r.
Proof.
  induction l as [|i l IH]; intros r; simpl; [discriminate|].
  unfold bind.
  destruct (map_item i) as [x|r1|] eqn:Hi; try discriminate.
  - destruct (map_items l) as [xs|r2|] eqn:Hl; try discriminate.
    intros [= ->]. now apply (IH r).
  - now apply map_item_not_return in Hi.
Qed.

Lemma new_sale_return e body r :
  new_sale e body = Return r ->
  r = BadRequest "Items array required" \/
  r = BadRequest "Valid totalAmount required".
Proof.
  unfold new_sale, bind, eval.
  destruct (member body "items") as [items|]; [|discriminate].
  destruct (member body "customerName") as [c|]; [|discriminate].
  destruct (member body "totalAmount") as [t|]; [|discriminate].
  destruct (member body "paymentMethod") as [pm|]; [|discriminate].
  destruct items as [| |[| | | |[|i l]|]|]; try (intros [= <-]; now left).
  remember (map_items (i :: l)) as m eqn:Hm.
  destruct (truthy t); simpl.
  - destruct (ToNumber t) as [n|]; [|discriminate].
    destruct (num_le n (Fin 0)).
    + intros [= <-]. now right.
    + destruct m as [its|r1|]; try discriminate.
      symmetry in Hm. now apply map_items_not_return in Hm.
  - intros [= <-]. now right.
Qed.

Lemma post_created_inv e f body sale :
  fst (post_api_sales e f body) = Created sale ->
  exists its db',
    new_sale e body = Next (sale, its) /\
    sell_all e (sale_id sale) 0 (readDatabase f) its = Next db' /\
    snd (post_api_sales e f body)
    = snd (writeDatabase e (push_sale sale db') f).
Proof.
  unfold post_api_sales, attempt, bind.
  destruct (new_sale e body) as [[s its]|r|] eqn:Hn; simpl;
    try discriminate.
  - destruct (sell_all e (sale_id s) 0 (readDatabase f) its) as [db'|r|] eqn:Hl;
      simpl; try discriminate.
    + intros H. injection H as <-. now exists its, db'.
    + intros ->. apply sell_all_return in Hl as [msg Hmsg]. discriminate.
  - intros ->. apply new_sale_return in Hn as [Hn|Hn]; discriminate.
Qed.

Lemma outcome_next {A : Type} (c : exec A) :
  outcome c = Next tt -> exists a, c = Next a.
Proof.
  destruct c as [a| |]; unfold outcome, bind; try discriminate.
  intros _. now exists a.
Qed.


Lemma new_sale_next e body sale its :
  new_sale e body = Next (sale, its) ->
  exists i l c t pm total,
    member body "items" = Some (VJson (JArr (i :: l))) /\
    member body "customerName" = Some c /\
    member body "totalAmount" = Some t /\
    member body "paymentMethod" = Some pm /\
    truthy t = true /\
    ToNumber t = Some total /\
    num_le total (Fin 0) = false /\
    map_items (i :: l) = Next its /\
    sale = mkSale (generateId e 0) (or_default c "Walk-in Customer")
                  (map item_object its) (of_num total)
                  (or_default pm "cash") (toISOString e 0).
Proof.
  unfold new_sale, bind, eval.
  destruct (member body "items") as [items|]; [|discriminate].
  destruct (member body "customerName") as [c|]; [|discriminate].
  destruct (member body "totalAmount") as [t|]; [|discriminate].
  destruct (member body "paymentMethod") as [pm|]; [|discriminate].
  destruct items as [| |[| | | |[|i l]|]|]; try discriminate.
  remember (map_items (i :: l)) as m eqn:Hm.
  destruct (truthy t) eqn:Ht; simpl; [|discriminate].
  destruct (ToNumber t) as [total|] eqn:Hn; [|discriminate].
  destruct (num_le total (Fin 0)) eqn:Hle; [discriminate|].
  destruct m as [xs|r1|]; try discriminate.
  intros [= <- <-]. exists i, l, c, t, pm, total.
  repeat split; try reflexivity; try assumption. now symmetry.
Qed.

Lemma map_items_length l :
  forall its, map_items l = Next its -> List.length its = List.length l.
Proof.
  induction l as [|i l IH]; intros its; simpl.
  - now intros [= <-].
  - unfold bind. destruct (map_item i) as [x| |]; try discriminate.
    destruct (map_items l) as [xs| |]; try discriminate.
    intros [= <-]. simpl. now rewrite (IH xs).
Qed.


(** *** The document written *)

(** What the document written after a successful loop holds. *)
Lemma written_document (d : Document) e sid k its db' sale :
  sell_all e sid k (parse d) its = Next db' ->
  let d' := stringify (push_sale sale db') in
  sales d' = (sales d ++ [convert_sale stringify_field sale])%list /\
  customers d' = customers d /\
  product_ids d' = product_ids d /\
  exists entries,
    stockTransactions d' = (stockTransactions d ++ entries)%list /\
    Forall2 (entry_of (fun n => stringify_field (of_num n)) sid (product_ids d))
            its entries.
Proof.
  intros Hl.
  apply sell_all_shape in Hl as (Hs & Hc & Hids & entries & Ht & Hall).
  simpl. rewrite Hs, Hc, Ht, !map_app. simpl.
  pose proof (stringify_parse d) as Hd.
  split; [|split; [reflexivity|split]].
  - f_equal. exact (f_equal sales Hd).
  - rewrite <- (product_ids_parse d), <- Hids.
    apply (product_ids_stringify (push_sale sale db')).
  - exists (map (convert_tx stringify_field) entries). split.
    + f_equal. exact (f_equal stockTransactions Hd).
    + rewrite <- (product_ids_parse d). now apply entries_stringify.
Qed.


(** *** Validation against the snapshot *)

Lemma validate_app ps pre rest :
  validate ps (pre ++ rest)%list = bind (validate ps pre) (fun _ => validate ps rest).
Proof.
  induction pre as [|it pre IH]; simpl; [reflexivity|].
  destruct (find_product ps (productId it)) as [p|];
    [|now rewrite reject_bind].
  destruct (ToNumber (product_quantity p)) as [q|]; simpl; [|reflexivity].
  destruct (num_lt q (quantity it)); [now rewrite reject_bind|exact IH].
Qed.

Lemma Forall2_In_l {A B : Type} (R : A -> B -> Prop) l l' x :
  Forall2 R l l' -> In x l -> exists y, In y l' /\ R x y.
Proof.
  induction 1 as [|a b l l' Hab _ IH]; intros Hin; [destruct Hin|].
  destruct Hin as [<-|Hin].
  - exists b. split; [now left|assumption].
  - destruct (IH Hin) as (y & Hy & HR). exists y. split; [now right|assumption].
Qed.




(** *** Invariants of the stored document *)

Lemma readDatabase_document_of f : readDatabase f = parse (document_of f).
Proof. now destruct f. Qed.

Lemma post_cases e f body :
  snd (post_api_sales e f body) = f \/
  exists sale its db',
    new_sale e body = Next (sale, its) /\
    sell_all e (sale_id sale) 0 (parse (document_of f)) its = Next db' /\
    post_api_sales e f body
    = (Created sale, Stored (stringify (push_sale sale db'))).
Proof.
  destruct (fst (post_api_sales e f body)) as [sale|msg|] eqn:Hr.
  - destruct (post_created_inv _ _ _ _ Hr) as (its & db' & Hn & Hl & Hf).
    unfold writeDatabase in Hf.
    destruct (writeFileSync_ok e); simpl in Hf; [|now left].
    right. exists sale, its, db'. rewrite <- readDatabase_document_of.
    repeat split; try assumption.
    rewrite <- Hr, <- Hf. now destruct (post_api_sales e f body).
  - left. apply only_created_writes. intros sale. now rewrite Hr.
  - left. apply only_created_writes. intros sale. now rewrite Hr.
Qed.

Lemma Forall_parsed (P : field -> Prop) (d : Document) :
  Forall (fun p => P (product_quantity p)) (products d) ->
  Forall (fun p => P (stringify_field (product_quantity p)))
         (products (parse d)).
Proof.
  intros H. simpl. apply Forall_forall. intros p0 Hin.
  apply in_map_iff in Hin as (p & <- & Hin).
  change (P (stringify_field (parse_field (product_quantity p)))).
  rewrite stringify_parse_field.
  now apply (proj1 (Forall_forall _ _) H).
Qed.

Lemma Forall_written (P : field -> Prop) (db : Db) :
  Forall (fun p => P (stringify_field (product_quantity p))) (products db) ->
  Forall (fun p => P (product_quantity p)) (products (stringify db)).
Proof.
  intros H. simpl. apply Forall_forall. intros p0 Hin.
  apply in_map_iff in Hin as (p & <- & Hin).
  now apply (proj1 (Forall_forall _ _) H).
Qed.

Lemma stock_non_negative_document f :
  stock_non_negative f ->
  Forall (fun p => non_negative (product_quantity p))
         (products (document_of f)).
Proof. destruct f; simpl; intros H; try constructor. exact H. Qed.

Lemma no_negative_stock_document f :
  no_negative_stock f ->
  Forall (fun p => ~ negative (product_quantity p))
         (products (document_of f)).
Proof. destruct f; simpl; intros H; try constructor. exact H. Qed.

(** X18: whatever the request and the answer, a call never makes a stored
    quantity a number below zero: a quantity it writes is the rounded
    difference of a number and one not above it, or null. *)
Theorem stock_never_negative :
  forall e f body,
    no_negative_stock f -> no_negative_stock (snd (post_api_sales e f body)).
Proof.
  intros e f body Hf.
  destruct (post_cases e f body)
    as [->|(sale & its & db' & Hn & Hl & ->)]; [assumption|].
  simpl.
  apply (Forall_written (fun q => ~ negative q) (push_sale sale db')). simpl.
  apply (sell_all_Forall
           (fun p => ~ negative (stringify_field (product_quantity p)))
           (fun _ => True))
    with (4 := Hl).
  - intros p q it now _ _ _. apply sold_not_negative.
  - apply Forall_forall. intros; exact I.
  - apply (Forall_parsed (fun q => ~ negative q)).
    now apply no_negative_stock_document.
Qed.

Lemma referential_integrity_document f :
  referential_integrity f ->
  ledger_refers (document_of f) /\ sales_refer (document_of f).
Proof.
  destruct f; simpl; intros H; try (split; constructor). exact H.
Qed.

Lemma entries_refer {V : Type} (g : num -> V) sid ids its
      (entries : list (StockTransaction V)) :
  Forall2 (entry_of g sid ids) its entries ->
  Forall (fun t => In (tx_productId t) ids) entries.
Proof.
  induction 1 as [|it t its entries (_ & _ & _ & Hin & _) _ IH];
    constructor; assumption.
Qed.

Lemma items_refer {V : Type} (g : num -> V) sid ids its
      (entries : list (StockTransaction V)) :
  Forall2 (entry_of g sid ids) its entries ->
  Forall (fun it => exists pid, productId it = VJson (JStr pid) /\ In pid ids)
         its.
Proof.
  induction 1 as [|it t its entries (_ & _ & Hpid & Hin & _) _ IH];
    constructor; [|assumption].
  exists (tx_productId t). split; assumption.
Qed.

(** C7: from a file whose ledger entries and sale lines all name a product of
    the file, a call answered 201 leaves such a file, with the same product
    ids; the lines of the new sale name products of the State that was read,
    which are the only ones the loop pushes ledger entries for. *)
Theorem sale_keeps_referential_integrity :
  forall e f body sale,
    referential_integrity f ->
    fst (post_api_sales e f body) = Created sale ->
    referential_integrity (snd (post_api_sales e f body)) /\
    product_ids (readDatabase (snd (post_api_sales e f body)))
    = product_ids (readDatabase f) /\
    Forall (fun i => exists pid,
                item_productId i = VJson (JStr pid) /\
                In pid (product_ids (readDatabase f)))
           (sale_items sale).
Proof.
  intros e f body sale Hf Hr.
  assert (Hlines : Forall (fun i => exists pid,
                               item_productId i = VJson (JStr pid) /\
                               In pid (product_ids (readDatabase f)))
                          (sale_items sale)).
  { destruct (post_created_inv _ _ _ _ Hr) as (its & db' & Hn & Hl & _).
    apply sell_all_shape in Hl as (_ & _ & _ & entries & _ & Hall).
    apply items_refer in Hall.
    apply new_sale_next in Hn
      as (i & l & c & t & pm & total & _ & _ & _ & _ & _ & _ & _ & _ & ->).
    simpl. apply Forall_forall. intros x Hx.
    apply in_map_iff in Hx as (it & <- & Hit).
    exact (proj1 (Forall_forall _ _) Hall it Hit). }
  destruct (post_cases e f body)
    as [Hsame|(sale' & its & db' & Hn & Hl & Hpost)].
  { rewrite Hsame. repeat split; assumption. }
  rewrite Hpost in *. simpl in Hr. injection Hr as ->. simpl snd.
  destruct (referential_integrity_document f Hf) as [Hledger Hsales].
  destruct (written_document _ _ _ _ _ _ sale Hl)
    as (Hs & _ & Hids & entries & Htx & Hall).
  split; [|split; [|assumption]].
  - split.
    + unfold ledger_refers. rewrite Htx, Hids. apply Forall_app. split.
      * exact Hledger.
      * exact (entries_refer _ _ _ _ _ Hall).
    + unfold sales_refer. rewrite Hs, Hids. apply Forall_app. split.
      * exact Hsales.
      * constructor; [|constructor].
        apply items_refer in Hall.
        apply new_sale_next in Hn
          as (i & l & c & t & pm & total & _ & _ & _ & _ & _ & _ & _ & _ & ->).
        simpl. apply Forall_forall. intros x Hx.
        apply in_map_iff in Hx as (y & <- & Hy).
        apply in_map_iff in Hy as (it & <- & Hit).
        destruct (proj1 (Forall_forall _ _) Hall it Hit) as (pid & Hpid & Hin).
        exists pid. split; [|assumption].
        simpl. now rewrite Hpid.
  - rewrite (readDatabase_document_of f).
    change (readDatabase (Stored (stringify (push_sale sale db'))))
      with (parse (stringify (push_sale sale db'))).
    rewrite !product_ids_parse. exact Hids.
Qed.

(** *** The check on totalAmount *)

Lemma reject_other_message {A : Type} err :
  @reject _ A err <> Return (BadRequest "Valid totalAmount required").
Proof.
  destruct err as [pid|nm av rq]; unfold reject, bind, eval.
  - destruct (ToString pid); discriminate.
  - destruct (ToString nm); [|discriminate].
    destruct (ToString av); [|discriminate].
    destruct (ToString (of_num rq)); discriminate.
Qed.

Lemma sell_all_other_message its :
  forall e sid k db,
    sell_all e sid k db its <> Return (BadRequest "Valid totalAmount required").
Proof.
  induction its as [|item rest IH]; intros e sid k db; simpl; [discriminate|].
  unfold bind.
  destruct (sell e sid k db item) as [db1|r1|] eqn:Hs; try discriminate.
  - apply IH.
  - intros [= ->]. revert Hs. unfold sell, bind, eval.
    destruct (find_product (products db) (productId item)) as [product|].
    + destruct (ToNumber (product_quantity product)) as [q|]; [|discriminate].
      destruct (num_lt q (quantity item)); [|discriminate].
      apply reject_other_message.
    + apply reject_other_message.
Qed.

(** The answer is "Valid totalAmount required" exactly when the items are a
    non-empty array and totalAmount is falsy or converts to a number not
    above zero; a totalAmount that converts to NaN is not refused. *)
Lemma total_refused_iff e f body t :
  member body "totalAmount" = Some t ->
  fst (post_api_sales e f body) = BadRequest "Valid totalAmount required" <->
  (exists i l, member body "items" = Some (VJson (JArr (i :: l)))) /\
  (truthy t = false \/
   exists n, ToNumber t = Some n /\ num_le n (Fin 0) = true).
Proof.
  intros Ht. unfold post_api_sales, attempt.
  destruct (new_sale e body) as [[sale its]|r|] eqn:Hn; simpl.
  - destruct (new_sale_next _ _ _ _ Hn)
      as (i & l & c & t' & pm & total & _ & _ & Ht' & _ & Htr & Hnum & Hle & _).
    rewrite Ht in Ht'. injection Ht' as <-.
    destruct (sell_all e (sale_id sale) 0 (readDatabase f) its) as [db'|r|] eqn:Hl;
      simpl; (split; [|intros [_ [Hfalsy|(n & Hz & Hneg)]]]);
      try discriminate; try congruence.
    intros ->. now apply sell_all_other_message in Hl.
  - revert Hn. unfold new_sale, bind, eval. rewrite Ht.
    destruct (member body "items") as [items|]; [|discriminate].
    destruct (member body "customerName") as [c|]; [|discriminate].
    destruct (member body "paymentMethod") as [pm|]; [|discriminate].
    destruct items as [| |[| | | |[|i l]|]|];
      try (intros [= <-]; split; [discriminate|intros [(i' & l' & [=]) _]]).
    remember (map_items (i :: l)) as m eqn:Hm.
    destruct (truthy t) eqn:Htr; simpl.
    + destruct (ToNumber t) as [n|] eqn:Hnum; [|discriminate].
      destruct (num_le n (Fin 0)) eqn:Hle.
      * intros [= <-]. split; [|reflexivity]. intros _.
        split; [now exists i, l|]. right. now exists n.
      * destruct m as [its|r1|]; try discriminate.
        symmetry in Hm. now apply map_items_not_return in Hm.
    + intros [= <-]. split; [|reflexivity]. intros _.
      split; [now exists i, l|now left].
  - split; [discriminate|]. intros [(i & l & Hi) Hbad].
    revert Hn. unfold new_sale, bind, eval. rewrite Ht, Hi.
    destruct (member body "customerName") as [c|] eqn:Hc.
    2:{ destruct body as [| |[]|]; discriminate. }
    destruct (member body "paymentMethod") as [pm|] eqn:Hpm.
    2:{ destruct body as [| |[]|]; discriminate. }
    destruct Hbad as [->|(n & -> & Hz)]; simpl; [discriminate|].
    destruct (truthy t); simpl; [|discriminate].
    rewrite Hz. discriminate.
Qed.

Lemma truthy_of_positive t z :
  ToNumber t = Some (Fin z) -> 0 < z -> truthy t = true.
Proof.
  destruct t as [| |[|b|n|s|l|o]|s']; simpl; intros H Hz;
    try discriminate; try reflexivity.
  - injection H as <-. lia.
  - destruct b; [reflexivity|]. injection H as <-. lia.
  - injection H as ->. apply negb_true_iff, Z.eqb_neq. lia.
  - destruct s; [|reflexivity].
    rewrite StringToNumber_empty in H. injection H as <-. lia.
Qed.

(** A totalAmount that converts to a number above zero is never refused as
    invalid. *)
Lemma positive_total_not_refused e f body t z :
  member body "totalAmount" = Some t ->
  ToNumber t = Some (Fin z) -> 0 < z ->
  fst (post_api_sales e f body) <> BadRequest "Valid totalAmount required".
Proof.
  intros Ht Hn Hz H.
  apply (total_refused_iff e f body t Ht) in H as [_ [Hfalsy|(n & Hz' & Hneg)]].
  - rewrite (truthy_of_positive t z Hn Hz) in Hfalsy. discriminate.
  - rewrite Hn in Hz'. injection Hz' as <-. simpl in Hneg.
    apply Z.leb_le in Hneg. lia.
Qed.

(** A truthy totalAmount that converts to NaN is never refused as invalid. *)
Lemma nan_total_not_refused e f body t :
  member body "totalAmount" = Some t ->
  truthy t = true -> ToNumber t = Some NaN ->
  fst (post_api_sales e f body) <> BadRequest "Valid totalAmount required".
Proof.
  intros Ht Htr Hn H.
  apply (total_refused_iff e f body t Ht) in H as [_ [Hfalsy|(n & Hz' & Hle)]].
  - rewrite Htr in Hfalsy. discriminate.
  - rewrite Hn in Hz'. injection Hz' as <-. discriminate.
Qed.

(** ** Further properties of the sale handler *)

(** *** What a call can add to the file *)

Lemma entries_out {V : Type} (g : num -> V) sid ids its
      (entries : list (StockTransaction V)) :
  Forall2 (entry_of g sid ids) its entries ->
  Forall (fun t => tx_type t = tx_out /\ tx_reason t = "Sale #" ++ sid) entries.
Proof.
  induction 1 as [|it t its entries (Hout & _ & _ & _ & Hr) _ IH];
    constructor; [split|]; assumption.
Qed.

(** X1: whatever the request, a call either leaves the file exactly as it
    was, or is answered 201 and has added one sale and one ledger entry of
    type out per item, each naming the sale in its reason, and nothing else
    to the sales, the ledger, the customers or the list of product ids. *)
Theorem sale_is_all_or_nothing :
  forall e f body,
    snd (post_api_sales e f body) = f \/
    exists sale its entries,
      fst (post_api_sales e f body) = Created sale /\
      new_sale e body = Next (sale, its) /\
      sales (document_of (snd (post_api_sales e f body)))
      = (sales (document_of f) ++ [convert_sale stringify_field sale])%list /\
      stockTransactions (document_of (snd (post_api_sales e f body)))
      = (stockTransactions (document_of f) ++ entries)%list /\
      List.length entries = List.length its /\
      Forall (fun t => tx_type t = tx_out /\
                       tx_reason t = "Sale #" ++ sale_id sale) entries /\
      customers (document_of (snd (post_api_sales e f body)))
      = customers (document_of f) /\
      product_ids (document_of (snd (post_api_sales e f body)))
      = product_ids (document_of f).
Proof.
  intros e f body.
  destruct (post_cases e f body)
    as [Hsame|(sale & its & db' & Hn & Hl & Hpost)]; [now left|].
  right.
  destruct (written_document _ _ _ _ _ _ sale Hl)
    as (Hs & Hc & Hids & entries & Htx & Hall).
  exists sale, its, entries. rewrite Hpost. simpl.
  split; [reflexivity|]. split; [assumption|].
  split; [exact Hs|]. split; [exact Htx|].
  split; [symmetry; exact (Forall2_length Hall)|].
  split; [exact (entries_out _ _ _ _ _ Hall)|].
  split; [exact Hc|exact Hids].
Qed.

(** *** What a sale never touches *)

Lemma assign_static pid q n now ps :
  map product_static (assign pid (sold q n now) ps) = map product_static ps.
Proof.
  induction ps as [|p ps IH]; simpl; [reflexivity|].
  destruct (strict_eq (product_id p) pid); simpl; [reflexivity|].
  now rewrite IH.
Qed.

Lemma sell_all_static its :
  forall e sid k db db',
    sell_all e sid k db its = Next db' ->
    map product_static (products db') = map product_static (products db).
Proof.
  induction its as [|item rest IH]; intros e sid k db db' H; simpl in H.
  - now injection H as <-.
  - unfold bind in H.
    destruct (sell e sid k db item) as [db1| |] eqn:Hs; try discriminate.
    apply sell_next in Hs as (product & q & _ & _ & _ & ->).
    rewrite (IH _ _ _ _ _ H). simpl. apply assign_static.
Qed.

Lemma static_stringify (db : Db) :
  map product_static (products (stringify db))
  = map static_written (map product_static (products db)).
Proof. simpl. rewrite !map_map. reflexivity. Qed.

(** X2: whatever the request and the answer, a call changes neither the
    number nor the order of the products, nor the id, name, category, price,
    lowStockThreshold or createdAt of any of them: only quantity and updatedAt
    can differ afterwards. *)
Theorem sale_touches_quantity_and_updatedAt_only :
  forall e f body,
    map product_static (products (document_of (snd (post_api_sales e f body))))
    = map product_static (products (document_of f)).
Proof.
  intros e f body.
  destruct (post_cases e f body)
    as [->|(sale & its & db' & Hn & Hl & ->)]; [reflexivity|].
  simpl document_of.
  change (products (stringify (push_sale sale db')))
    with (products (stringify db')).
  rewrite static_stringify, (sell_all_static _ _ _ _ _ _ Hl).
  rewrite <- static_stringify. now rewrite stringify_parse.
Qed.

Lemma sell_all_unnamed its :
  forall e sid k db db' pid,
    sell_all e sid k db its = Next db' ->
    ~ In pid (map productId its) ->
    find_product (products db') pid = find_product (products db) pid.
Proof.
  induction its as [|item rest IH]; intros e sid k db db' pid H Hpid;
    simpl in H.
  - now injection H as <-.
  - unfold bind in H.
    destruct (sell e sid k db item) as [db1| |] eqn:Hs; try discriminate.
    apply sell_next in Hs as (product & q & _ & _ & _ & ->).
    simpl in Hpid. rewrite (IH _ _ _ _ _ _ H) by tauto. simpl.
    apply (find_assign_other _ (sold_id _ _ _)). tauto.
Qed.

(** X3: a product that no item of the request names is found in the file
    after the call exactly as it was before, with every field. *)
Theorem unnamed_product_is_untouched :
  forall e f body pid,
    (forall sale its, new_sale e body = Next (sale, its) ->
                      ~ In pid (map productId its)) ->
    find_product (products (document_of (snd (post_api_sales e f body)))) pid
    = find_product (products (document_of f)) pid.
Proof.
  intros e f body pid Hpid.
  destruct (post_cases e f body)
    as [->|(sale & its & db' & Hn & Hl & ->)]; [reflexivity|].
  simpl document_of.
  rewrite (find_product_stringify (push_sale sale db')). simpl products.
  rewrite (sell_all_unnamed _ _ _ _ _ _ _ Hl (Hpid sale its Hn)).
  rewrite find_product_parse.
  destruct (find_product (products (document_of f)) pid) as [p|]; simpl;
    [|reflexivity].
  now rewrite stringify_parse_product.
Qed.

(** *** Repeated products: what the loop asks of each product *)

Lemma demand_non_negative id its :
  Forall counted_item its -> 0 <= demand id its.
Proof.
  induction 1 as [|it its (b & Hb & Hpos) _ IH]; simpl; [lia|].
  destruct (strict_eq id (productId it)); [|assumption].
  rewrite Hb. simpl. lia.
Qed.

Lemma demand_zero_or_named id its :
  demand id its = 0 \/
  exists it, In it its /\ strict_eq id (productId it) = true.
Proof.
  induction its as [|it its IH]; simpl; [now left|].
  destruct (strict_eq id (productId it)) eqn:E.
  - right. exists it. split; [now left|assumption].
  - destruct IH as [H|(it' & Hin & H)]; [now left|].
    right. exists it'. split; [now right|assumption].
Qed.

(** Of a product that one item only names, that item's quantity is all
    that is asked. *)
Lemma demand_distinct id its it :
  NoDup (map productId its) ->
  In it its ->
  strict_eq id (productId it) = true ->
  demand id its = requested_of (quantity it).
Proof.
  induction its as [|x rest IH]; intros Hnd Hin E; [destruct Hin|].
  inversion Hnd as [|y l Hnotin Hnd']; subst. simpl.
  destruct Hin as [->|Hin].
  - rewrite E.
    destruct (demand_zero_or_named id rest) as [->|(it' & Hin' & E')]; [lia|].
    exfalso. apply Hnotin.
    rewrite (strict_eq_values _ _ _ E E'). now apply in_map.
  - destruct (strict_eq id (productId x)) eqn:Ex; [|now apply IH].
    exfalso. apply Hnotin.
    rewrite (strict_eq_values _ _ _ Ex E). now apply in_map.
Qed.

(** One accepted round, seen from any product of the object. *)
Lemma sell_view e sid k db item db1 :
  sell e sid k db item = Next db1 ->
  exists product q,
    find_product (products db) (productId item) = Some product /\
    ToNumber (product_quantity product) = Some q /\
    num_lt q (quantity item) = false /\
    find_product (products db1) (productId item)
    = Some (sold q (quantity item) (toISOString e (1 + 2 * k)%nat) product) /\
    (forall pid, pid <> productId item ->
                 find_product (products db1) pid
                 = find_product (products db) pid) /\
    map product_id (products db1) = map product_id (products db).
Proof.
  intros Hs. apply sell_next in Hs as (product & q & Hf & Hq & Hlt & ->).
  exists product, q. simpl. repeat split; try assumption.
  - rewrite (find_assign_same _ (sold_id _ _ _)), Hf. reflexivity.
  - intros pid Hne. apply (find_assign_other _ (sold_id _ _ _)). congruence.
  - apply (assign_ids _ (sold_id _ _ _)).
Qed.

(** One accepted round within the exact range, seen from any product. *)
Lemma sell_exact_view e sid k db item rest db1 :
  numeric item ->
  Forall (exact_in (fun _ => True) (item :: rest)) (products db) ->
  sell e sid k db item = Next db1 ->
  Forall (exact_in (fun _ => True) rest) (products db1) /\
  exists product a b,
    find_product (products db) (productId item) = Some product /\
    product_quantity product = VJson (JNum a) /\
    quantity item = Fin b /\
    b <= a /\
    (exists product',
        find_product (products db1) (productId item) = Some product' /\
        product_quantity product' = VJson (JNum (a - b)) /\
        product_id product' = product_id product) /\
    (forall pid, pid <> productId item ->
                 find_product (products db1) pid
                 = find_product (products db) pid).
Proof.
  intros Hitem Hex Hs.
  destruct (sell_exact _ _ _ _ _ _ rest _ (fun _ _ _ _ => I) Hitem Hex Hs)
    as (Hex1 & product & a & b & Hf & Ha & Hb & Hle & Hbound & _).
  split; [assumption|].
  apply sell_view in Hs as (product' & q & Hf' & Hq & _ & Hsame & Hother & _).
  rewrite Hf in Hf'. injection Hf' as <-.
  rewrite Ha in Hq. simpl in Hq. injection Hq as <-. rewrite Hb in Hsame.
  exists product, a, b. repeat split; try assumption.
  eexists. split; [exact Hsame|]. split; [now apply sold_exact|reflexivity].
Qed.

Lemma sell_all_final its :
  forall e sid k db db',
    Forall numeric its ->
    Forall (exact_in (fun _ => True) its) (products db) ->
    sell_all e sid k db its = Next db' ->
    forall pid p a,
      find_product (products db) pid = Some p ->
      product_quantity p = VJson (JNum a) ->
      exists p',
        find_product (products db') pid = Some p' /\
        product_quantity p' = VJson (JNum (a - demand (product_id p) its)) /\
        product_id p' = product_id p.
Proof.
  induction its as [|item rest IH];
    intros e sid k db db' Hnum Hex H pid p a Hf Ha; simpl in H.
  - injection H as <-. exists p. simpl. rewrite Z.sub_0_r. now repeat split.
  - inversion Hnum as [|x l Hitem Hrest]; subst.
    unfold bind in H.
    destruct (sell e sid k db item) as [db1| |] eqn:Hs; try discriminate.
    destruct (sell_exact_view _ _ _ _ _ _ _ Hitem Hex Hs)
      as (Hex1 & product & a0 & b & Hfi & Ha0 & Hb & _ & Hsame & Hother).
    destruct Hsame as (product' & Hf1 & Hq1 & Hid1).
    simpl. destruct (strict_eq (product_id p) (productId item)) eqn:E.
    + assert (Hpid : pid = productId item)
        by exact (strict_eq_values _ _ _ (strict_eq_find _ _ _ Hf) E).
      subst pid. rewrite Hf in Hfi. injection Hfi as <-.
      rewrite Ha in Ha0. injection Ha0 as <-.
      destruct (IH _ _ _ _ _ Hrest Hex1 H _ _ (a - b) Hf1 Hq1)
        as (p' & Hf' & Hq' & Hid').
      exists p'. rewrite Hid1 in Hq', Hid'. repeat split; try assumption.
      rewrite Hq', Hb. simpl. do 2 f_equal. lia.
    + assert (Hne : pid <> productId item).
      { intros ->. apply strict_eq_find in Hf. congruence. }
      rewrite <- (Hother pid Hne) in Hf.
      exact (IH _ _ _ _ _ Hrest Hex1 H _ _ a Hf Ha).
Qed.

Lemma counted_item_numeric it : counted_item it -> numeric it.
Proof. intros (b & Hb & _). now exists b. Qed.

Lemma sell_all_needs its :
  forall e sid k db db',
    Forall counted_item its ->
    Forall (exact_in (fun _ => True) its) (products db) ->
    sell_all e sid k db its = Next db' ->
    forall it, In it its ->
      exists p a,
        find_product (products db) (productId it) = Some p /\
        product_quantity p = VJson (JNum a) /\
        demand (product_id p) its <= a.
Proof.
  induction its as [|item rest IH]; intros e sid k db db' Hits Hdb H it Hin;
    [destruct Hin|].
  inversion Hits as [|x l Hitem Hrest]; subst.
  simpl in H. unfold bind in H.
  destruct (sell e sid k db item) as [db1| |] eqn:Hs; try discriminate.
  destruct (sell_exact_view _ _ _ _ _ _ _ (counted_item_numeric _ Hitem) Hdb Hs)
    as (Hdb1 & product & a & b & Hfi & Ha & Hb & Hle & Hsame & Hother).
  destruct Hsame as (product' & Hf1 & Hq1 & Hid1).
  pose proof (IH _ _ _ _ _ Hrest Hdb1 H) as Hneed.
  assert (Hrest_le : demand (product_id product) rest <= a - b).
  { destruct (demand_zero_or_named (product_id product) rest)
      as [->|(it' & Hin' & E')]; [lia|].
    destruct (Hneed it' Hin') as (p1 & a1 & Hp1 & Ha1 & Hle1).
    rewrite (strict_eq_values _ _ _ E' (strict_eq_find _ _ _ Hfi)) in Hp1.
    rewrite Hf1 in Hp1. injection Hp1 as <-.
    rewrite Hq1 in Ha1. injection Ha1 as <-.
    now rewrite Hid1 in Hle1. }
  assert (Hhead : demand (product_id product) (item :: rest) <= a).
  { simpl. rewrite (strict_eq_find _ _ _ Hfi), Hb. simpl. lia. }
  destruct Hin as [<-|Hin]; [now exists product, a|].
  destruct (Hneed it Hin) as (p1 & a1 & Hp1 & Ha1 & Hle1).
  destruct (strict_eq (product_id product) (productId it)) eqn:E.
  - rewrite (strict_eq_values _ _ _ E (strict_eq_find _ _ _ Hfi)).
    now exists product, a.
  - assert (Hne : productId it <> productId item).
    { intros Heq. rewrite Heq in E.
      rewrite (strict_eq_find _ _ _ Hfi) in E. discriminate. }
    rewrite (Hother _ Hne) in Hp1.
    exists p1, a1. repeat split; try assumption.
    simpl. destruct (strict_eq (product_id p1) (productId item)) eqn:E1;
      [|assumption].
    exfalso. apply Hne.
    exact (strict_eq_values _ _ _ (strict_eq_find _ _ _ Hp1) E1).
Qed.

(** A round of the loop accepts a quantity of any sign that is not above the
    product's: within the exact range the product is left with the
    difference, and the ledger entry carries the quantity as it came. *)
Lemma sell_accepts_any_sign e sid k db it p a b :
  find_product (products db) (productId it) = Some p ->
  product_quantity p = VJson (JNum a) ->
  quantity it = Fin b ->
  b <= a ->
  Z.abs (a - b) <= exact_bound ->
  exists db',
    sell e sid k db it = Next db' /\
    (exists p', find_product (products db') (productId it) = Some p' /\
                product_quantity p' = VJson (JNum (a - b))) /\
    stockTransactions db'
    = (stockTransactions db ++ [ledger_entry e sid k p it])%list /\
    tx_type (ledger_entry e sid k p it) = tx_out /\
    tx_quantity (ledger_entry e sid k p it) = VJson (JNum b).
Proof.
  intros Hf Ha Hb Hle Hex. unfold sell, bind, eval.
  rewrite Hf, Ha, Hb. simpl.
  apply Z.ltb_ge in Hle. rewrite Hle.
  eexists. split; [reflexivity|]. simpl. repeat split.
  - rewrite (find_assign_same _ (sold_id _ _ _)), Hf. simpl.
    eexists. split; [reflexivity|]. simpl. now rewrite (double_exact _ Hex).
  - now rewrite Hb.
Qed.

Lemma sell_all_enough its :
  forall e sid k db,
    Forall counted_item its ->
    Forall (exact_in (fun _ => True) its) (products db) ->
    (forall it, In it its ->
       exists p a,
         find_product (products db) (productId it) = Some p /\
         product_quantity p = VJson (JNum a) /\
         demand (product_id p) its <= a) ->
    exists db', sell_all e sid k db its = Next db'.
Proof.
  induction its as [|item rest IH]; intros e sid k db Hits Hdb Hfit; simpl.
  - now exists db.
  - inversion Hits as [|x l Hitem Hrest]; subst.
    pose proof Hitem as (b & Hb & Hpos).
    destruct (Hfit item (or_introl eq_refl)) as (p & a & Hf & Ha & Hle).
    simpl in Hle. rewrite (strict_eq_find _ _ _ Hf), Hb in Hle. simpl in Hle.
    pose proof (demand_non_negative (product_id p) rest Hrest) as Hnn.
    assert (Hbound : Z.abs (a - b) <= exact_bound).
    { pose proof (find_product_some _ _ _ Hf) as [_ Hin].
      destruct (proj1 (Forall_forall _ _) Hdb p Hin) as (a' & Ha' & _ & Hbd).
      rewrite Ha in Ha'. injection Ha' as <-.
      simpl in Hbd. rewrite (strict_eq_find _ _ _ Hf), Hb in Hbd.
      simpl in Hbd.
      pose proof (returned_non_negative (product_id p) rest). lia. }
    destruct (sell_accepts_any_sign e sid k db item p a b Hf Ha Hb)
      as (db1 & Hs & _); [lia|assumption|].
    rewrite Hs. simpl.
    destruct (sell_exact_view _ _ _ _ _ _ _ (counted_item_numeric _ Hitem)
                              Hdb Hs)
      as (Hdb1 & product & a0 & b0 & Hfi & Ha0 & Hb0 & _ & Hsame & Hother).
    destruct Hsame as (product' & Hf1 & Hq1 & Hid1).
    rewrite Hf in Hfi. injection Hfi as <-.
    rewrite Ha in Ha0. injection Ha0 as <-.
    rewrite Hb in Hb0. injection Hb0 as <-.
    apply (IH _ _ _ _ Hrest Hdb1).
    intros it Hin.
    destruct (Hfit it (or_intror Hin)) as (p' & a' & Hf' & Ha' & Hle').
    simpl in Hle'.
    destruct (strict_eq (product_id p') (productId item)) eqn:E.
    + assert (Heq : productId it = productId item)
        by exact (strict_eq_values _ _ _ (strict_eq_find _ _ _ Hf') E).
      rewrite Heq in Hf' |- *. rewrite Hf in Hf'. injection Hf' as <-.
      rewrite Ha in Ha'. injection Ha' as <-.
      rewrite Hb in Hle'. simpl in Hle'.
      exists product', (a - b). split; [exact Hf1|].
      split; [exact Hq1|]. rewrite Hid1. lia.
    + assert (Hne : productId it <> productId item).
      { intros Heq. rewrite Heq in Hf'. rewrite Hf in Hf'.
        injection Hf' as <-. rewrite (strict_eq_find _ _ _ Hf) in E.
        discriminate. }
      exists p', a'. rewrite (Hother _ Hne). now repeat split.
Qed.

Lemma post_created_iff e f body sale its :
  new_sale e body = Next (sale, its) ->
  status (fst (post_api_sales e f body)) = 201 <->
  exists db', sell_all e (sale_id sale) 0 (readDatabase f) its = Next db'.
Proof.
  intros Hn. split.
  - intros Hst.
    destruct (fst (post_api_sales e f body)) as [s|msg|] eqn:Hr;
      try discriminate.
    destruct (post_created_inv _ _ _ _ Hr) as (its0 & db' & Hn0 & Hl & _).
    rewrite Hn in Hn0. injection Hn0 as <- <-. now exists db'.
  - intros [db' Hl]. now rewrite (post_created _ _ _ _ _ _ Hn Hl).
Qed.

(** A stored request within the exact range is so in memory. *)
Lemma exact_in_parsed (Q : Z -> Prop) (d : Document) its :
  within_exact_range (products d) its ->
  Forall (fun p => forall a, product_quantity p = Some (JNum a) -> Q a)
         (products d) ->
  Forall (exact_in Q its) (products (parse d)).
Proof.
  intros [_ Hps] HQ. simpl. apply Forall_forall. intros p0 Hin.
  apply in_map_iff in Hin as (p & <- & Hin).
  destruct (proj1 (Forall_forall _ _) Hps p Hin) as (a & Ha & Hb).
  exists a. repeat split.
  - exact (f_equal parse_field Ha).
  - exact (proj1 (Forall_forall _ _) HQ p Hin a Ha).
  - exact Hb.
Qed.

Lemma exact_in_parsed_any (d : Document) its :
  within_exact_range (products d) its ->
  Forall (exact_in (fun _ => True) its) (products (parse d)).
Proof.
  intros H. apply exact_in_parsed; [assumption|].
  apply Forall_forall. intros; exact I.
Qed.

Lemma parsed_number (x : field) a :
  parse_field x = VJson (JNum a) <-> x = Some (JNum a).
Proof.
  destruct x as [j|]; simpl; split; intros H; try discriminate; congruence.
Qed.

(** X4: for a request that passes the checks on its head, whose quantities
    are integers not below zero, on a file whose stock quantities are
    integers, all within the range in which subtraction is exact: the answer
    is 201 exactly when every item names a product of the file and the
    quantities asked of each product, added over all the items that name it,
    do not exceed that product's quantity. *)
Theorem accepted_iff_demand_fits_stock :
  forall e f body sale its,
    new_sale e body = Next (sale, its) ->
    within_exact_range (products (document_of f)) its ->
    Forall counted_item its ->
    status (fst (post_api_sales e f body)) = 201 <->
    forall it, In it its ->
      exists p a,
        find_product (products (document_of f)) (productId it) = Some p /\
        product_quantity p = Some (JNum a) /\
        demand (product_id p) its <= a.
Proof.
  intros e f body sale its Hn Hc Hits.
  rewrite (post_created_iff e f body sale its Hn), readDatabase_document_of.
  pose proof (exact_in_parsed_any _ _ Hc) as Hmem.
  split.
  - intros [db' Hl] it Hin.
    destruct (sell_all_needs _ _ _ _ _ _ Hits Hmem Hl it Hin)
      as (p0 & a & Hf & Ha & Hle).
    rewrite find_product_parse in Hf.
    destruct (find_product (products (document_of f)) (productId it)) as [p|];
      simpl in Hf; [|discriminate].
    injection Hf as <-. exists p, a. repeat split; try assumption.
    now apply parsed_number.
  - intros Hfit. apply (sell_all_enough _ _ _ _ _ Hits Hmem).
    intros it Hin. destruct (Hfit it Hin) as (p & a & Hf & Ha & Hle).
    exists (convert_product parse_field p), a.
    rewrite find_product_parse, Hf. repeat split; try assumption.
    exact (f_equal parse_field Ha).
Qed.

(** What the file holds of a product after an accepted request within the
    exact range. *)
Lemma written_quantity (d : Document) e sid k its db' sale :
  within_exact_range (products d) its ->
  sell_all e sid k (parse d) its = Next db' ->
  forall pid p a,
    find_product (products d) pid = Some p ->
    product_quantity p = Some (JNum a) ->
    exists p',
      find_product (products (stringify (push_sale sale db'))) pid = Some p' /\
      product_quantity p' = Some (JNum (a - demand (product_id p) its)).
Proof.
  intros Hex Hl pid p a Hf Ha.
  destruct (sell_all_final _ _ _ _ _ _ (proj1 Hex) (exact_in_parsed_any _ _ Hex)
                           Hl pid (convert_product parse_field p) a)
    as (p' & Hf' & Hq' & _).
  - now rewrite find_product_parse, Hf.
  - exact (f_equal parse_field Ha).
  - exists (convert_product stringify_field p').
    rewrite (find_product_stringify (push_sale sale db')). simpl products.
    rewrite Hf'. split; [reflexivity|].
    change (stringify_field (product_quantity p')
            = Some (JNum (a - demand (product_id p) its))).
    now rewrite Hq'.
Qed.

Lemma written_stock (d : Document) e sid k its db' sale :
  within_exact_range (products d) its ->
  sell_all e sid k (parse d) its = Next db' ->
  total_stock d - total_stock (stringify (push_sale sale db'))
  = total_requested its.
Proof.
  intros Hex Hl.
  pose proof (sell_all_stock its _ _ _ _ _ (proj1 Hex)
                             (exact_in_parsed_any _ _ Hex) Hl) as Hstock.
  rewrite stringify_parse in Hstock.
  change (stock (products d) - stock (products (stringify db'))
          = total_requested its).
  lia.
Qed.

(** X5: when a request is answered 201 and written, its quantities and
    those of the file being integers within the range in which subtraction
    is exact, every product of the file has its quantity less the quantities
    asked of it, added over all the items that name it (nothing, for a
    product no item names). *)
Theorem written_quantity_is_stock_less_demand :
  forall e f body sale its,
    new_sale e body = Next (sale, its) ->
    status (fst (post_api_sales e f body)) = 201 ->
    writeFileSync_ok e = true ->
    within_exact_range (products (document_of f)) its ->
    forall pid p a,
      find_product (products (document_of f)) pid = Some p ->
      product_quantity p = Some (JNum a) ->
      exists p',
        find_product (products (document_of (snd (post_api_sales e f body))))
                     pid = Some p' /\
        product_quantity p' = Some (JNum (a - demand (product_id p) its)).
Proof.
  intros e f body sale its Hn Hst Hw Hex pid p a Hf Ha.
  apply (post_created_iff e f body sale its Hn) in Hst as [db' Hl].
  rewrite (post_created _ _ _ _ _ _ Hn Hl).
  unfold writeDatabase. rewrite Hw. simpl document_of.
  rewrite readDatabase_document_of in Hl.
  exact (written_quantity _ _ _ _ _ _ sale Hex Hl pid p a Hf Ha).
Qed.

Lemma entries_total sid ids its (entries : list (StockTransaction field)) :
  Forall numeric its ->
  Forall2 (entry_of (fun n => stringify_field (of_num n)) sid ids) its entries ->
  ledger_total entries = total_requested its.
Proof.
  intros Hnum Hall. induction Hall as [|it t its entries (_ & Hq & _) _ IH];
    [reflexivity|].
  inversion Hnum as [|x l [b Hb] Hrest]; subst.
  unfold ledger_total, total_requested in *. simpl.
  rewrite (IH Hrest), Hq, Hb. reflexivity.
Qed.

(** X6: when a request is answered 201 and written, its quantities and
    those of the file being integers within the range in which subtraction
    is exact, the quantities of the ledger entries it has added sum to the
    stock that has left the products; this holds with repeated products and
    with quantities of any sign. *)
Theorem ledger_accounts_for_stock :
  forall e f body sale its,
    new_sale e body = Next (sale, its) ->
    status (fst (post_api_sales e f body)) = 201 ->
    writeFileSync_ok e = true ->
    within_exact_range (products (document_of f)) its ->
    exists entries,
      stockTransactions (document_of (snd (post_api_sales e f body)))
      = (stockTransactions (document_of f) ++ entries)%list /\
      List.length entries = List.length its /\
      ledger_total entries
      = total_stock (document_of f)
        - total_stock (document_of (snd (post_api_sales e f body))).
Proof.
  intros e f body sale its Hn Hst Hw Hex.
  apply (post_created_iff e f body sale its Hn) in Hst as [db' Hl].
  rewrite (post_created _ _ _ _ _ _ Hn Hl).
  unfold writeDatabase. rewrite Hw. simpl document_of.
  rewrite readDatabase_document_of in Hl.
  destruct (written_document _ _ _ _ _ _ sale Hl)
    as (_ & _ & _ & entries & Htx & Hall).
  exists entries. split; [exact Htx|].
  split; [symmetry; exact (Forall2_length Hall)|].
  rewrite (entries_total _ _ _ _ (proj1 Hex) Hall).
  symmetry. exact (written_stock _ _ _ _ _ _ sale Hex Hl).
Qed.

(** *** Validation in turn is what the loop decides *)

Lemma find_product_view ps ps' pid :
  map stock_view ps = map stock_view ps' ->
  match find_product ps pid, find_product ps' pid with
  | Some p, Some p' => stock_view p = stock_view p'
  | None, None => True
  | _, _ => False
  end.
Proof.
  unfold find_product. revert ps'.
  induction ps as [|p ps IH]; intros [|p' ps'] H; try discriminate;
    [exact I|].
  cbn [map] in H. injection H as Hid Hname Hq Hrest. cbn [find].
  rewrite <- Hid.
  destruct (strict_eq (product_id p) pid); [|now apply IH].
  unfold stock_view. now rewrite Hid, Hname, Hq.
Qed.

Lemma assign_view pid q n now now' ps ps' :
  map stock_view ps = map stock_view ps' ->
  map stock_view (assign pid (sold q n now) ps)
  = map stock_view (assign pid (sold q n now') ps').
Proof.
  revert ps'.
  induction ps as [|p ps IH]; intros [|p' ps'] H; try discriminate;
    [reflexivity|].
  cbn [map] in H. injection H as Hid Hname Hq Hrest. cbn [assign].
  rewrite <- Hid.
  destruct (strict_eq (product_id p) pid); cbn [map].
  - f_equal; [|assumption]. unfold stock_view. simpl. now rewrite Hid, Hname.
  - f_equal; [|now apply IH]. unfold stock_view. now rewrite Hid, Hname, Hq.
Qed.

(** Whether or not product ids repeat, what the loop decides is what
    validation in turn decides on the products it started from. *)
Lemma sell_all_in_turn its :
  forall e sid k db ps,
    map stock_view (products db) = map stock_view ps ->
    outcome (sell_all e sid k db its) = validate_in_turn ps its.
Proof.
  induction its as [|item rest IH]; intros e sid k db ps Hsame;
    [reflexivity|].
  simpl. unfold sell.
  pose proof (find_product_view _ _ (productId item) Hsame) as Hv.
  destruct (find_product (products db) (productId item)) as [product|],
           (find_product ps (productId item)) as [product'|];
    try contradiction.
  2:{ unfold outcome. now rewrite !reject_bind. }
  assert (Hname : product_name product = product_name product')
    by exact (f_equal (fun v => snd (fst v)) Hv).
  assert (Hq : product_quantity product = product_quantity product')
    by exact (f_equal snd Hv).
  rewrite <- Hname, <- Hq.
  unfold outcome, bind at 3 4, eval.
  destruct (ToNumber (product_quantity product)) as [q|]; [|reflexivity].
  simpl.
  destruct (num_lt q (quantity item)).
  { fold (@bind Db Db). now rewrite !reject_bind. }
  simpl. apply IH. simpl. now apply assign_view.
Qed.

(** When no product id repeats among the items, validation in turn is
    validation against the products as they are. *)
Lemma validate_in_turn_distinct ps its :
  NoDup (map productId its) ->
  validate_in_turn ps its = validate ps its.
Proof.
  intros Hnd.
  rewrite <- (sell_all_in_turn its (mkEnv (fun _ => EmptyString)
                                          (fun _ => EmptyString) true)
                               EmptyString 0%nat (mkState ps [] [] []) ps
                               eq_refl).
  now apply sell_all_validate.
Qed.

Lemma commit_in_turn e d body sale its :
  new_sale e body = Next (sale, its) ->
  validate_in_turn (products (parse d)) its = Next tt ->
  writeFileSync_ok e = true ->
  exists db',
    sell_all e (sale_id sale) 0 (parse d) its = Next db' /\
    post_api_sales e (Stored d) body
    = (Created sale, Stored (stringify (push_sale sale db'))).
Proof.
  intros Hn Hv Hw.
  pose proof (sell_all_in_turn its e (sale_id sale) 0%nat (parse d)
                               (products (parse d)) eq_refl) as Hagree.
  rewrite Hv in Hagree. apply outcome_next in Hagree as [db' Hl].
  exists db'. split; [assumption|].
  rewrite (post_created e (Stored d) body sale its db' Hn Hl).
  unfold writeDatabase. now rewrite Hw.
Qed.

(** *** Committing a sale *)


(** C10, as amended: the loop looks at an item's quantity only to compare
    it with the product's, and never at the price.  In a request that passes
    the checks on its head, whose items each pass the stock check when the
    loop reaches them and whose quantities, like those of the file, are
    integers within the range in which subtraction is exact, an item whose
    quantity is zero or negative is committed like any other when the write
    succeeds: it gets its ledger entry of type out with that zero or negative
    quantity, and its product ends with its quantity less the quantities of
    all the items that name it; when no other item names the product, that
    is the quantity it had for zero, and a larger one for a negative
    quantity. *)
Theorem zero_and_negative_quantities_commit :
  forall e (d : Document) body sale its,
    new_sale e body = Next (sale, its) ->
    validate_in_turn (products (parse d)) its = Next tt ->
    within_exact_range (products d) its ->
    writeFileSync_ok e = true ->
    exists d' entries,
      post_api_sales e (Stored d) body = (Created sale, Stored d') /\
      stockTransactions d' = (stockTransactions d ++ entries)%list /\
      List.length entries = List.length its /\
      forall it b, In it its -> quantity it = Fin b -> b <= 0 ->
        exists p p' a t,
          find_product (products d) (productId it) = Some p /\
          product_quantity p = Some (JNum a) /\
          find_product (products d') (productId it) = Some p' /\
          product_quantity p'
          = Some (JNum (a - demand (product_id p) its)) /\
          (NoDup (map productId its) ->
           product_quantity p' = Some (JNum (a - b)) /\
           a <= a - b /\ (b < 0 -> a < a - b)) /\
          In t entries /\
          tx_type t = tx_out /\
          tx_quantity t = Some (JNum b) /\
          productId it = VJson (JStr (tx_productId t)).
Proof.
  intros e d body sale its Hn Hv Hex Hw.
  destruct (commit_in_turn e d body sale its Hn Hv Hw) as (db' & Hl & Hpost).
  destruct (written_document d _ _ _ _ _ sale Hl)
    as (_ & _ & _ & entries & Htx & Hall).
  exists (stringify (push_sale sale db')), entries.
  split; [assumption|]. split; [assumption|].
  split; [symmetry; exact (Forall2_length Hall)|].
  intros it b Hin Hb Hneg.
  destruct (Forall2_In_l _ _ _ _ Hall Hin) as (t & Ht & Hout & Hqty & Hpid & Hid & _).
  destruct (find_product_present _ _ Hid) as (p & Hf & Hp).
  rewrite <- Hpid in Hf.
  destruct (proj1 (Forall_forall _ _) (proj2 Hex) p Hp) as (a & Ha & _).
  destruct (written_quantity _ _ _ _ _ _ sale Hex Hl _ p a Hf Ha)
    as (p' & Hf' & Hq').
  exists p, p', a, t. repeat split; try assumption; try lia.
  - rewrite Hq'. do 2 f_equal.
    rewrite (demand_distinct _ _ it H Hin (strict_eq_find _ _ _ Hf)), Hb.
    reflexivity.
  - now rewrite Hqty, Hb.
Qed.


(** *** The check on the items, and an empty store *)

Lemma reject_not_items {A : Type} err :
  @reject _ A err <> Return (BadRequest "Items array required").
Proof.
  destruct err as [pid|nm av rq]; unfold reject, bind, eval.
  - destruct (ToString pid); discriminate.
  - destruct (ToString nm); [|discriminate].
    destruct (ToString av); [|discriminate].
    destruct (ToString (of_num rq)); discriminate.
Qed.

Lemma sell_all_not_items its :
  forall e sid k db,
    sell_all e sid k db its <> Return (BadRequest "Items array required").
Proof.
  induction its as [|item rest IH]; intros e sid k db; simpl; [discriminate|].
  unfold bind.
  destruct (sell e sid k db item) as [db1|r1|] eqn:Hs; try discriminate.
  - apply IH.
  - intros [= ->]. revert Hs. unfold sell, bind, eval.
    destruct (find_product (products db) (productId item)) as [product|].
    + destruct (ToNumber (product_quantity product)) as [q|]; [|discriminate].
      destruct (num_lt q (quantity item)); [|discriminate].
      apply reject_not_items.
    + apply reject_not_items.
Qed.

Lemma member_defined v k x :
  member v k = Some x -> forall k', exists y, member v k' = Some y.
Proof.
  destruct v as [| |[]|]; simpl; intros H k'; try discriminate; eauto.
Qed.

(** X7: for a body that is not null, the answer is "Items array required"
    exactly when [items] is not an array with at least one element; this
    check comes first, so it does not depend on totalAmount or on anything
    else in the request or in the file. *)
Theorem items_refused_iff :
  forall e f body items,
    member body "items" = Some items ->
    fst (post_api_sales e f body) = BadRequest "Items array required" <->
    forall i l, items <> VJson (JArr (i :: l)).
Proof.
  intros e f body items Hi.
  destruct (member_defined _ _ _ Hi "customerName") as [c Hc].
  destruct (member_defined _ _ _ Hi "totalAmount") as [t Ht].
  destruct (member_defined _ _ _ Hi "paymentMethod") as [pm Hpm].
  split.
  - intros Hr i l ->.
    unfold post_api_sales, attempt in Hr.
    destruct (new_sale e body) as [[sale its]|r|] eqn:Hn; simpl in Hr.
    + destruct (sell_all e (sale_id sale) 0 (readDatabase f) its)
        as [db'|r|] eqn:Hl; simpl in Hr; try discriminate.
      subst r. now apply sell_all_not_items in Hl.
    + subst r. revert Hn. unfold new_sale, bind, eval.
      rewrite Hi, Hc, Ht, Hpm.
      remember (map_items (i :: l)) as m eqn:Hm.
      destruct (truthy t); simpl; [|discriminate].
      destruct (ToNumber t) as [n|]; [|discriminate].
      destruct (num_le n (Fin 0)); [discriminate|].
      destruct m as [its|r1|]; try discriminate.
      symmetry in Hm. now apply map_items_not_return in Hm.
    + discriminate.
  - intros Hnot. unfold post_api_sales, attempt, new_sale, bind, eval.
    rewrite Hi, Hc, Ht, Hpm.
    destruct items as [| |[| | | |[|i l]|]|]; try reflexivity.
    now destruct (Hnot i l).
Qed.

(** X8: on a file without products, and so on a missing or unreadable
    file, no request is answered 201, and the call leaves the file as it
    was: a sale never creates the file. *)
Theorem no_sale_without_products :
  forall e f body,
    products (document_of f) = [] ->
    status (fst (post_api_sales e f body)) <> 201 /\
    snd (post_api_sales e f body) = f.
Proof.
  intros e f body Hempty.
  assert (Hno : forall sale, fst (post_api_sales e f body) <> Created sale).
  { intros sale Hr.
    destruct (post_created_inv _ _ _ _ Hr) as (its & db' & Hn & Hl & _).
    apply new_sale_next in Hn
      as (i & l & c & t & pm & total & _ & _ & _ & _ & _ & _ & _ & Hm & _).
    apply map_items_length in Hm.
    destruct its as [|item rest]; [discriminate|].
    assert (Hps : products (readDatabase f) = []).
    { rewrite readDatabase_document_of. simpl. now rewrite Hempty. }
    cbn [sell_all] in Hl. unfold sell in Hl. rewrite Hps in Hl.
    cbn [find_product find] in Hl.
    rewrite reject_bind in Hl. now apply reject_not_next in Hl. }
  split; [|now apply only_created_writes].
  destruct (fst (post_api_sales e f body)) as [sale|msg|] eqn:Hr;
    simpl; try discriminate.
  now destruct (Hno sale).
Qed.

(** *** Failure leaves the file alone *)

Lemma bad_request_leaves_store e f body :
  status (fst (post_api_sales e f body)) = 400 ->
  snd (post_api_sales e f body) = f.
Proof.
  intros H. apply only_created_writes. intros sale Hr.
  rewrite Hr in H. discriminate.
Qed.




End Sale.

(** ** The other routes and the start of the server *)

Section Catalogue.
Context {rt : Runtime}.

Lemma listed_products f : get_api_products f = products (document_of f).
Proof.
  unfold get_api_products. rewrite readDatabase_document_of.
  now rewrite stringify_parse.
Qed.

Lemma listed_sales f : get_api_sales f = sales (document_of f).
Proof.
  unfold get_api_sales. rewrite readDatabase_document_of.
  now rewrite stringify_parse.
Qed.

Lemma new_product_not_return e body r : new_product e body <> Return r.
Proof.
  unfold new_product, bind, eval.
  destruct (member body "name"); [|discriminate].
  destruct (member body "category"); [|discriminate].
  destruct (member body "price") as [pr|]; [|discriminate].
  destruct (ToNumber pr); [|discriminate].
  destruct (member body "quantity") as [qt|]; [|discriminate].
  destruct (ToNumber qt); [|discriminate].
  destruct (member body "lowStockThreshold") as [th|]; [|discriminate].
  destruct (ToNumber th); discriminate.
Qed.

Lemma post_api_products_created e f body product :
  fst (post_api_products e f body) = ProductCreated product ->
  new_product e body = Next product /\
  snd (post_api_products e f body)
  = snd (writeDatabase e (push_product product (readDatabase f)) f).
Proof.
  unfold post_api_products.
  destruct (new_product e body) as [p| |]; simpl; try discriminate.
  intros [= ->]. now split.
Qed.

Lemma pushed_document (d : Document) product :
  stringify (push_product product (parse d))
  = mkState (products d ++ [convert_product stringify_field product])
            (sales d) (customers d) (stockTransactions d).
Proof.
  pose proof (stringify_parse d) as Hd.
  destruct d as [ps ss cs ts]. unfold stringify, parse, convert_state in *.
  simpl in *. injection Hd as Hps Hss Hts.
  rewrite map_app, Hps, Hss, Hts. reflexivity.
Qed.

(** X10: when [POST /api/products] is answered 201 and the write succeeds,
    [GET /api/products] returns what it returned before followed by the new
    product as the answer carried it, and sales, customers and ledger are as
    they were; on a missing or unreadable file the new product is the whole
    list. *)
Theorem created_product_is_listed_last :
  forall e f body product,
    fst (post_api_products e f body) = ProductCreated product ->
    writeFileSync_ok e = true ->
    get_api_products (snd (post_api_products e f body))
    = (get_api_products f ++ [convert_product stringify_field product])%list /\
    get_api_sales (snd (post_api_products e f body)) = get_api_sales f /\
    customers (document_of (snd (post_api_products e f body)))
    = customers (document_of f) /\
    stockTransactions (document_of (snd (post_api_products e f body)))
    = stockTransactions (document_of f).
Proof.
  intros e f body product Hr Hw.
  apply post_api_products_created in Hr as [_ ->].
  unfold writeDatabase. rewrite Hw. simpl snd.
  rewrite !listed_products, !listed_sales, readDatabase_document_of.
  simpl document_of. rewrite pushed_document. repeat split.
Qed.

(** X13: the quantity stored for a created product is [Number] of the
    quantity submitted, and product creation keeps "every stored quantity is
    an integer not below zero" exactly when that conversion gives such an
    integer: an absent or non-numeric quantity, and an infinite one, is
    stored as null, and a negative one as it is. *)
Theorem creation_keeps_stock_non_negative_iff :
  forall e f body product,
    fst (post_api_products e f body) = ProductCreated product ->
    writeFileSync_ok e = true ->
    stock_non_negative f ->
    exists qt n,
      member body "quantity" = Some qt /\
      ToNumber qt = Some n /\
      product_quantity product = of_num n /\
      (stock_non_negative (snd (post_api_products e f body)) <->
       exists z, n = Fin z /\ 0 <= z).
Proof.
  intros e f body product Hr Hw Hf.
  apply post_api_products_created in Hr as [Hn ->].
  unfold writeDatabase. rewrite Hw. simpl snd.
  rewrite readDatabase_document_of, pushed_document. simpl.
  apply stock_non_negative_document in Hf.
  revert Hn. unfold new_product, bind, eval.
  destruct (member body "name"); [|discriminate].
  destruct (member body "category"); [|discriminate].
  destruct (member body "price") as [pr|]; [|discriminate].
  destruct (ToNumber pr) as [p|]; [|discriminate].
  destruct (member body "quantity") as [qt|]; [|discriminate].
  destruct (ToNumber qt) as [n|] eqn:Hqt; [|discriminate].
  destruct (member body "lowStockThreshold") as [th|]; [|discriminate].
  destruct (ToNumber th) as [t|]; [|discriminate].
  intros [= <-]. exists qt, n. repeat split; try assumption.
  - rewrite Forall_app. intros [_ Hnew].
    inversion Hnew as [|x l (z & Hz & Hpos) _]; subst. simpl in Hz.
    exists z. split; [|assumption].
    destruct n as [|a|s]; simpl in Hz; try discriminate. congruence.
  - intros (z & -> & Hpos). rewrite Forall_app. split; [assumption|].
    constructor; [|constructor]. exists z. now split.
Qed.

(** X14: product creation keeps referential integrity, whatever the request
    and whether or not the write succeeds: the ledger entries and sale lines
    of the file still name products of the file. *)
Theorem creation_keeps_referential_integrity :
  forall e f body,
    referential_integrity f ->
    referential_integrity (snd (post_api_products e f body)).
Proof.
  intros e f body Hf. unfold post_api_products.
  destruct (new_product e body) as [product| |]; simpl; try assumption.
  unfold writeDatabase. destruct (writeFileSync_ok e); simpl; [|assumption].
  rewrite readDatabase_document_of, pushed_document.
  destruct (referential_integrity_document f Hf) as [Hl Hs].
  unfold ledger_refers, sales_refer, product_ids in *. simpl.
  rewrite map_app. split.
  - apply Forall_forall. intros t Ht. apply in_or_app. left.
    exact (proj1 (Forall_forall _ _) Hl t Ht).
  - apply Forall_forall. intros s Hs'.
    pose proof (proj1 (Forall_forall _ _) Hs s Hs') as Hitems.
    apply Forall_forall. intros i Hi.
    destruct (proj1 (Forall_forall _ _) Hitems i Hi) as (pid & Hpid & Hin).
    exists pid. split; [assumption|]. apply in_or_app. now left.
Qed.

(** X15: after a product creation that was written, looking the new id up
    as a sale does finds the new product when no product of the file had
    that id; when one had it, the older product is found and the new one can
    never be sold; lookups of every other id are as before. *)
Theorem created_product_lookup :
  forall e f body product,
    fst (post_api_products e f body) = ProductCreated product ->
    writeFileSync_ok e = true ->
    (~ In (product_id product) (product_ids (document_of f)) ->
     find_product (products (document_of (snd (post_api_products e f body))))
                  (VJson (JStr (product_id product)))
     = Some (convert_product stringify_field product)) /\
    (In (product_id product) (product_ids (document_of f)) ->
     exists older,
       In older (products (document_of f)) /\
       find_product (products (document_of (snd (post_api_products e f body))))
                    (VJson (JStr (product_id product)))
       = Some older) /\
    (forall pid, pid <> VJson (JStr (product_id product)) ->
       find_product (products (document_of (snd (post_api_products e f body))))
                    pid
       = find_product (products (document_of f)) pid).
Proof.
  intros e f body product Hr Hw.
  apply post_api_products_created in Hr as [_ ->].
  unfold writeDatabase. rewrite Hw. simpl snd.
  rewrite readDatabase_document_of. simpl document_of at 1 3 5.
  rewrite pushed_document. simpl products.
  split; [|split].
  - intros Hfresh. rewrite find_product_last.
    rewrite (find_product_fresh _ _ Hfresh). simpl.
    now rewrite String.eqb_refl.
  - intros Hin. destruct (find_product_present _ _ Hin) as (older & Hf & Ho).
    exists older. split; [assumption|].
    rewrite find_product_last. now rewrite Hf.
  - intros pid Hne. rewrite find_product_last.
    destruct (find_product (products (document_of f)) pid); [reflexivity|].
    simpl. destruct (strict_eq (product_id product) pid) eqn:E; [|reflexivity].
    apply strict_eq_true in E. now destruct Hne.
Qed.

(** X16: after an answer of [POST /api/sales] other than 201, and after a
    201 whose write failed, both GET routes return what they returned before;
    after a 201 whose write succeeded, [GET /api/sales] returns the earlier
    sales followed by the sale exactly as the answer carried it, and
    [GET /api/products] the same number of products. *)
Theorem listings_after_a_sale :
  forall e f body,
    (status (fst (post_api_sales e f body)) <> 201 \/ writeFileSync_ok e = false ->
     get_api_sales (snd (post_api_sales e f body)) = get_api_sales f /\
     get_api_products (snd (post_api_sales e f body)) = get_api_products f) /\
    (forall sale,
       fst (post_api_sales e f body) = Created sale ->
       writeFileSync_ok e = true ->
       get_api_sales (snd (post_api_sales e f body))
       = (get_api_sales f ++ [convert_sale stringify_field sale])%list /\
       List.length (get_api_products (snd (post_api_sales e f body)))
       = List.length (get_api_products f)).
Proof.
  intros e f body. split.
  - intros Hfail.
    assert (Hsame : snd (post_api_sales e f body) = f).
    { destruct (fst (post_api_sales e f body)) as [sale|msg|] eqn:Hr.
      - destruct Hfail as [Hst|Hw]; [now destruct Hst|].
        destruct (post_created_inv _ _ _ _ Hr) as (its & db' & _ & _ & ->).
        unfold writeDatabase. now rewrite Hw.
      - apply only_created_writes. intros sale. now rewrite Hr.
      - apply only_created_writes. intros sale. now rewrite Hr. }
    rewrite Hsame. now split.
  - intros sale Hr Hw.
    destruct (post_created_inv _ _ _ _ Hr) as (its & db' & Hn & Hl & ->).
    unfold writeDatabase. rewrite Hw. simpl snd.
    rewrite readDatabase_document_of in Hl.
    destruct (written_document _ _ _ _ _ _ sale Hl) as (Hs & _ & Hids & _).
    rewrite !listed_sales, !listed_products. simpl document_of.
    split; [exact Hs|].
    unfold product_ids in Hids.
    rewrite <- (length_map product_id), Hids. apply length_map.
Qed.

(** X17: loading the server writes the empty document only where there is
    no file; a file that exists is left as it is, readable or not; and a
    server that has loaded reads the same State, and answers every sale
    request the same, as one reading the file as it was found. *)
Theorem initialize_keeps_state :
  forall e f f',
    initialize e f = Some f' ->
    f' <> Missing /\
    (f <> Missing -> f' = f) /\
    readDatabase f' = readDatabase f /\
    (forall e', initialize e' f' = Some f') /\
    (forall e' body,
        fst (post_api_sales e' f' body) = fst (post_api_sales e' f body)).
Proof.
  intros e f f' Hi.
  assert (Hread : readDatabase f' = readDatabase f).
  { destruct f; simpl in Hi.
    - destruct (writeFileSync_ok e); [|discriminate]. now injection Hi as <-.
    - now injection Hi as <-.
    - now injection Hi as <-. }
  split; [|split; [|split; [exact Hread|split]]].
  - destruct f; simpl in Hi.
    + destruct (writeFileSync_ok e); [|discriminate].
      injection Hi as <-. discriminate.
    + injection Hi as <-. discriminate.
    + injection Hi as <-. discriminate.
  - intros Hne. destruct f; simpl in Hi; [now destruct Hne| |];
      now injection Hi as <-.
  - intros e'. destruct f; simpl in Hi.
    + destruct (writeFileSync_ok e); [|discriminate]. now injection Hi as <-.
    + now injection Hi as <-.
    + now injection Hi as <-.
  - intros e' body. unfold post_api_sales. rewrite Hread.
    now destruct (attempt e' (readDatabase f) body) as [[db sale]| |].
Qed.

End Catalogue.

(** * Scenarios

    The handler evaluated with the runtime [node] on the sample data. *)

(** A concrete request is within the exact range by evaluation. *)
Ltac exact_range :=
  split;
  [ repeat (apply Forall_cons; [eexists; reflexivity|]); apply Forall_nil
  | repeat (apply Forall_cons;
            [eexists; split; [reflexivity|vm_compute; discriminate]|]);
    apply Forall_nil ].

(** Rounding: above 2^53 the odd integers are no doubles, a tie goes to the
    even neighbour, and from 2^1024 - 2^970 on the result is an infinity. *)
Example double_beyond_exact_range :
  double (2 ^ 53) = Fin (2 ^ 53) /\
  double (2 ^ 53 + 1) = Fin (2 ^ 53) /\
  double (2 ^ 53 + 3) = Fin (2 ^ 53 + 4) /\
  double (2 ^ 54 - 1) = Fin (2 ^ 54) /\
  double (- (2 ^ 53) - 1) = Fin (- (2 ^ 53)) /\
  double (2 ^ 1024 - 2 ^ 970 - 1) = Fin (2 ^ 1024 - 2 ^ 971) /\
  double (2 ^ 1024 - 2 ^ 970) = Infinity false /\
  double (- (2 ^ 1024)) = Infinity true.
Proof. vm_compute. repeat split. Qed.

(** Beyond the exact range a sale can leave the stock as it was, and a
    return can push it past the largest double, which is written as null. *)
Example sale_beyond_exact_range :
  map product_quantity
      (products (document_of
         (snd (post_api_sales (rt := node) (disk true)
                 (Stored (mkState [widget (Some (JNum (2 ^ 54)))] [] [] []))
                 (order [line "p1" (JNum 1)] (JNum 5))))))
  = [Some (JNum (2 ^ 54))] /\
  map product_quantity
      (products (document_of
         (snd (post_api_sales (rt := node) (disk true)
                 (Stored (mkState [widget (Some (JNum (2 ^ 1023)))] [] [] []))
                 (order [line "p1" (JNum (- (2 ^ 1023)))] (JNum 5))))))
  = [Some JNull].
Proof. vm_compute. split; reflexivity. Qed.



(** The loop had already taken three widgets from the object in memory when
    it met the unknown product; the file was never written. *)
Example sale_abandoned_half_way :
  exists db,
    sell (rt := node) (disk true) "id0" 0 (readDatabase (Stored shop))
         widget_line
    = Next db /\
    map product_quantity (products db) = [VJson (JNum 7)] /\
    post_api_sales (rt := node) (disk true) (Stored shop) widget_then_ghost
    = (BadRequest "Product with ID ghost not found", Stored shop).
Proof. eexists. repeat split. Qed.

(** Scenarios 2, 3 and 4 of the specification. *)
Example scenario_insufficient_stock :
  post_api_sales (rt := node) (disk true) (Stored shop)
                 (order [line "p1" (JNum 15)] (JNum 75))
  = (BadRequest "Insufficient stock for Widget. Available: 10, Requested: 15",
     Stored shop).
Proof. reflexivity. Qed.

Example scenario_no_items :
  post_api_sales (rt := node) (disk true) (Stored shop) (order [] (JNum 75))
  = (BadRequest "Items array required", Stored shop).
Proof. reflexivity. Qed.

Example scenario_unknown_product :
  post_api_sales (rt := node) (disk true) (Stored shop)
                 (order [line "ghost" (JNum 1)] (JNum 5))
  = (BadRequest "Product with ID ghost not found", Stored shop).
Proof. reflexivity. Qed.

(** An item that is [null] makes the callback of [map] throw: 500. *)
Example scenario_null_item :
  post_api_sales (rt := node) (disk true) (Stored shop) (order [JNull] (JNum 5))
  = (ServerError, Stored shop).
Proof. reflexivity. Qed.

(** Scenario 1 of the specification. *)
Example scenario_three_widgets :
  exists d',
    post_api_sales (rt := node) (disk true) (Stored shop) three_widgets
    = (Created three_widgets_sale, Stored d') /\
    map product_quantity (products d') = [Some (JNum 7)] /\
    map (fun t => (tx_productId t, tx_type t, tx_quantity t))
        (stockTransactions d')
    = [("p1", tx_out, Some (JNum 3))] /\
    map (fun s => (sale_customerName s, sale_paymentMethod s)) (sales d')
    = [(Some (JStr "Walk-in Customer"), Some (JStr "cash"))].
Proof. eexists. repeat split. Qed.



(** C3: the write fails, the answer is 201 all the same, and the file still
    holds ten widgets and no sale. *)
Theorem failed_write_is_answered_created :
  post_api_sales (rt := node) (disk false) (Stored shop) three_widgets
  = (Created three_widgets_sale, Stored shop) /\
  status (fst (post_api_sales (rt := node) (disk false) (Stored shop)
                              three_widgets)) = 201 /\
  (forall db, writeDatabase (disk false) db (Stored shop)
              = (false, Stored shop)).
Proof. repeat split. Qed.



(** C5: a totalAmount that is the string "abc" converts to NaN; the request
    is not refused, and the sale is written with totalAmount null. *)
Theorem text_total_is_recorded :
  ToNumber (rt := node) (VJson (JStr "abc")) = Some NaN /\
  status (fst (post_api_sales (rt := node) (disk true) (Stored shop) text_total))
  = 201 /\
  exists d',
    snd (post_api_sales (rt := node) (disk true) (Stored shop) text_total)
    = Stored d' /\
    map sale_totalAmount (sales d') = [Some JNull] /\
    map product_quantity (products d') = [Some (JNum 9)].
Proof. repeat split. eexists. repeat split. Qed.



Lemma sale_keeps_referential_integrity_witness :
  referential_integrity
    (snd (post_api_sales (rt := node) (disk true) (Stored shop) three_widgets)).
Proof.
  apply (sale_keeps_referential_integrity (rt := node) (disk true) (Stored shop)
           three_widgets three_widgets_sale).
  - split; constructor.
  - reflexivity.
Defined.

Lemma zero_and_negative_quantities_commit_witness :
  exists d' entries,
    post_api_sales (rt := node) (disk true) (Stored two_shelves) returns
    = (Created returns_sale, Stored d') /\
    stockTransactions d' = entries /\
    map tx_quantity entries = [Some (JNum (-5)); Some (JNum 0)] /\
    map product_quantity (products d') = [Some (JNum 15); Some (JNum 0)].
Proof.
  destruct (zero_and_negative_quantities_commit (rt := node) (disk true)
              two_shelves returns returns_sale returns_items)
    as (d' & entries & Hpost & Htx & _).
  - reflexivity.
  - reflexivity.
  - exact_range.
  - reflexivity.
  - exists d', entries. split; [exact Hpost|].
    injection Hpost as <-. simpl in Htx. subst entries. repeat split.
Defined.

(** C10, counterexample: the one item of [nothing] names a product of the
    file and its quantity is 0, yet it is not committed: with a stored
    quantity of -5 the request is answered 400 and nothing is written. *)
Lemma zero_quantity_is_refused :
  find_product (products overdrawn) (VJson (JStr "p1"))
  = Some (widget (Some (JNum (-5)))) /\
  (exists sale,
      new_sale (rt := node) (disk true) nothing
      = Next (sale, [mkItem (VJson (JStr "p1")) (VJson (JStr "Widget"))
                            (Fin 5) (Fin 0)])) /\
  post_api_sales (rt := node) (disk true) (Stored overdrawn) nothing
  = (BadRequest "Insufficient stock for Widget. Available: -5, Requested: 0",
     Stored overdrawn).
Proof. split; [reflexivity|]. split; [eexists|]; reflexivity. Qed.

(** ** Scenarios for the further properties *)

Lemma stock_never_negative_witness :
  no_negative_stock (Stored shop) /\
  no_negative_stock
    (snd (post_api_sales (rt := node) (disk true) (Stored shop) no_quantity)) /\
  map product_quantity
      (products (document_of
         (snd (post_api_sales (rt := node) (disk true) (Stored shop)
                              no_quantity))))
  = [Some JNull].
Proof.
  assert (H : no_negative_stock (Stored shop)).
  { apply Forall_cons; [|apply Forall_nil].
    intros (z & Hz & Hneg). injection Hz as <-. lia. }
  split; [exact H|]. split; [|reflexivity].
  apply (stock_never_negative (rt := node)). exact H.
Defined.

Lemma unnamed_product_is_untouched_witness :
  find_product
    (products (document_of (snd (post_api_sales (rt := node) (disk true)
                                   (Stored two_shelves) three_widgets))))
    (VJson (JStr "p2"))
  = find_product (products two_shelves) (VJson (JStr "p2")).
Proof.
  apply (unnamed_product_is_untouched (rt := node) (disk true)
           (Stored two_shelves) three_widgets (VJson (JStr "p2"))).
  intros sale its Hn. injection Hn as _ <-. simpl.
  intros [H|[]]. discriminate.
Defined.

Lemma accepted_iff_demand_fits_stock_witness :
  status (fst (post_api_sales (rt := node) (disk true) (Stored shop)
                              three_then_seven)) = 201 <->
  forall it, In it three_then_seven_items ->
    exists p a,
      find_product (products shop) (productId it) = Some p /\
      product_quantity p = Some (JNum a) /\
      demand (product_id p) three_then_seven_items <= a.
Proof.
  apply (accepted_iff_demand_fits_stock (rt := node) (disk true) (Stored shop)
           three_then_seven three_then_seven_sale three_then_seven_items).
  - reflexivity.
  - exact_range.
  - repeat constructor; [exists 3|exists 7]; split; try reflexivity; lia.
Defined.

Lemma written_quantity_is_stock_less_demand_witness :
  exists p',
    find_product
      (products (document_of (snd (post_api_sales (rt := node) (disk true)
                                     (Stored shop) three_then_seven))))
      (VJson (JStr "p1")) = Some p' /\
    product_quantity p'
    = Some (JNum (10 - demand "p1" three_then_seven_items)).
Proof.
  apply (written_quantity_is_stock_less_demand (rt := node) (disk true)
           (Stored shop) three_then_seven three_then_seven_sale
           three_then_seven_items eq_refl eq_refl eq_refl
           ltac:(exact_range)
           (VJson (JStr "p1")) (widget (Some (JNum 10))) 10 eq_refl eq_refl).
Defined.

Lemma ledger_accounts_for_stock_witness :
  exists entries,
    stockTransactions
      (document_of (snd (post_api_sales (rt := node) (disk true) (Stored shop)
                                        three_then_seven)))
    = (stockTransactions (document_of (Stored shop)) ++ entries)%list /\
    List.length entries = List.length three_then_seven_items /\
    ledger_total entries
    = total_stock (document_of (Stored shop))
      - total_stock
          (document_of (snd (post_api_sales (rt := node) (disk true)
                                            (Stored shop) three_then_seven))).
Proof.
  apply (ledger_accounts_for_stock (rt := node) (disk true) (Stored shop)
           three_then_seven three_then_seven_sale three_then_seven_items).
  - reflexivity.
  - reflexivity.
  - reflexivity.
  - exact_range.
Defined.

Lemma items_refused_iff_witness :
  fst (post_api_sales (rt := node) (disk true) (Stored shop)
                      (order [] (JStr "abc")))
  = BadRequest "Items array required" <->
  forall i l, VJson (JArr []) <> VJson (JArr (i :: l)).
Proof.
  apply (items_refused_iff (rt := node) (disk true) (Stored shop)
           (order [] (JStr "abc")) (VJson (JArr []))).
  reflexivity.
Defined.

Lemma no_sale_without_products_witness :
  status (fst (post_api_sales (rt := node) (disk true) Missing three_widgets))
  <> 201 /\
  snd (post_api_sales (rt := node) (disk true) Missing three_widgets) = Missing.
Proof.
  apply (no_sale_without_products (rt := node) (disk true) Missing
           three_widgets).
  reflexivity.
Defined.

Lemma created_product_is_listed_last_witness :
  get_api_products (snd (post_api_products (rt := node) (disk true)
                                           (Stored shop) new_gadget))
  = (get_api_products (Stored shop)
     ++ [convert_product stringify_field gadget_created])%list /\
  get_api_sales (snd (post_api_products (rt := node) (disk true) (Stored shop)
                                        new_gadget))
  = get_api_sales (Stored shop) /\
  customers (document_of (snd (post_api_products (rt := node) (disk true)
                                                 (Stored shop) new_gadget)))
  = customers (document_of (Stored shop)) /\
  stockTransactions
    (document_of (snd (post_api_products (rt := node) (disk true) (Stored shop)
                                         new_gadget)))
  = stockTransactions (document_of (Stored shop)).
Proof.
  apply (created_product_is_listed_last (rt := node) (disk true) (Stored shop)
           new_gadget gadget_created); reflexivity.
Defined.

Lemma creation_keeps_stock_non_negative_iff_witness :
  exists qt n,
    member new_gadget "quantity" = Some qt /\
    ToNumber (rt := node) qt = Some n /\
    product_quantity gadget_created = of_num n /\
    (stock_non_negative (snd (post_api_products (rt := node) (disk true)
                                                (Stored shop) new_gadget)) <->
     exists z, n = Fin z /\ 0 <= z).
Proof.
  apply (creation_keeps_stock_non_negative_iff (rt := node) (disk true)
           (Stored shop) new_gadget gadget_created).
  - reflexivity.
  - reflexivity.
  - repeat constructor. exists 10. split; [reflexivity|lia].
Defined.

Lemma creation_keeps_referential_integrity_witness :
  stockTransactions (document_of sold_shop) <> [] /\
  sales (document_of sold_shop) <> [] /\
  referential_integrity sold_shop /\
  referential_integrity (snd (post_api_products (rt := node) (disk true)
                                                sold_shop new_gadget)).
Proof.
  assert (H : referential_integrity sold_shop).
  { split.
    - apply Forall_cons; [left; reflexivity|apply Forall_nil].
    - apply Forall_cons; [|apply Forall_nil].
      apply Forall_cons; [|apply Forall_nil].
      exists "p1". split; [reflexivity|left; reflexivity]. }
  split; [discriminate|]. split; [discriminate|]. split; [exact H|].
  apply (creation_keeps_referential_integrity (rt := node)). exact H.
Defined.

Lemma created_product_lookup_witness :
  find_product
    (products (document_of (snd (post_api_products (rt := node) (disk true)
                                                   (Stored shop) new_gadget))))
    (VJson (JStr "id0"))
  = Some (convert_product stringify_field gadget_created).
Proof.
  apply (proj1 (created_product_lookup (rt := node) (disk true) (Stored shop)
                  new_gadget gadget_created eq_refl eq_refl)).
  simpl. intros [H|[]]. discriminate.
Defined.

Lemma listings_after_a_sale_witness :
  get_api_sales (snd (post_api_sales (rt := node) (disk true) (Stored shop)
                                     three_widgets))
  = (get_api_sales (Stored shop)
     ++ [convert_sale stringify_field three_widgets_sale])%list /\
  List.length (get_api_products (snd (post_api_sales (rt := node) (disk true)
                                                     (Stored shop)
                                                     three_widgets)))
  = List.length (get_api_products (Stored shop)).
Proof.
  apply (proj2 (listings_after_a_sale (rt := node) (disk true) (Stored shop)
                  three_widgets) three_widgets_sale); reflexivity.
Defined.

Lemma initialize_keeps_state_witness :
  Stored (stringify empty_state) <> Missing /\
  (Missing <> Missing -> Stored (stringify empty_state) = Missing) /\
  readDatabase (Stored (stringify empty_state)) = readDatabase Missing /\
  (forall e', initialize e' (Stored (stringify empty_state))
              = Some (Stored (stringify empty_state))) /\
  (forall e' body,
      fst (post_api_sales (rt := node) e' (Stored (stringify empty_state)) body)
      = fst (post_api_sales (rt := node) e' Missing body)).
Proof.
  apply (initialize_keeps_state (rt := node) (disk true) Missing).
  reflexivity.
Defined.
